(** * Deployment pipeline of the satellite wallpaper repository

    A shallow embedding of [config/config_loader.py] (canonical keys) and of
    [scripts/deploy/deploy-wallpaper.py] (option resolution, source lookup,
    frame staging, publication, the per-view loop), followed by the
    properties proved about them.

    Conventions of the embedding.
    - A Python [str] is the list of its Unicode code points ([pystr]); the
      micro sign U+00B5 and the Greek mu U+03BC are single code points.
    - A Python [float] is an exact rational ([Q]); IEEE rounding, infinities
      and NaN are outside the model.  Division by zero raises, as in Python.
    - A directory is the list of its entries in the order [iterdir] yields
      them; name lookup is exact (POSIX).
    - An uncaught Python exception is the result [Raise]. *)

From Stdlib Require Import ZArith NArith QArith Qround List String Ascii Lia Bool.
From Stdlib Require Import Strings.Byte.
From stdpp Require Import base option list sorting gmap.

Set Warnings "-register-all".

Close Scope Q_scope.
Open Scope nat_scope.

(* ================================================================== *)
(** ** Strings *)

Definition pystr := list N.

(** A literal of the source, as code points (ASCII literals only). *)
Definition U (s : string) : pystr :=
  (λ a, N_of_ascii a) <$> list_ascii_of_string s.

Definition str_eqb (a b : pystr) : bool := bool_decide (a = b).

(** What Python's Unicode database says about the code points above
    U+00FF: [str.isalnum], the value of a decimal digit, [str.isspace].
    The Latin-1 range is tabulated below; the rest stays a parameter of the
    development. *)
Class UnicodeTable := {
  isalnum_high : N → bool;
  decimal_high : N → option Z;
  isspace_high : N → bool
}.

Definition in_range (lo hi c : N) : bool := (lo <=? c)%N && (c <=? hi)%N.

(** [str.isalnum] below U+0100: letters, and the characters with a decimal,
    digit or numeric value. *)
Definition isalnum_latin1 (c : N) : bool :=
  in_range 48 57 c || in_range 65 90 c || in_range 97 122 c
  || (c =? 170)%N || in_range 178 179 c || (c =? 181)%N || in_range 185 186 c
  || in_range 188 190 c || in_range 192 214 c || in_range 216 246 c
  || in_range 248 255 c.

Definition isspace_latin1 (c : N) : bool :=
  in_range 9 13 c || in_range 28 32 c || (c =? 133)%N || (c =? 160)%N.

(** The ASCII set [A-Za-z0-9_-] of the docstring. *)
Definition ascii_key_char (c : N) : bool :=
  in_range 48 57 c || in_range 65 90 c || in_range 97 122 c
  || (c =? 95)%N || (c =? 45)%N.

Record view := { sat : pystr; sec : pystr; im : pystr }.

Section Canonicalization.
Context {UT : UnicodeTable}.

Definition isalnum (c : N) : bool :=
  if (c <? 256)%N then isalnum_latin1 c else isalnum_high c.

Definition isspace (c : N) : bool :=
  if (c <? 256)%N then isspace_latin1 c else isspace_high c.

Definition decimal_value (c : N) : option Z :=
  if (c <? 256)%N
  then (if in_range 48 57 c then Some (Z.of_N c - 48)%Z else None)
  else decimal_high c.

(** [\w] of a [str] pattern: alphanumeric, or the underscore. *)
Definition re_word (c : N) : bool := isalnum c || (c =? 95)%N.

(** [text.replace(old, new)] for one-character [old] and [new]. *)
Definition str_replace (old new : N) (text : pystr) : pystr :=
  (λ c, if (c =? old)%N then new else c) <$> text.

(** The class [[^\w\-_]] of the pattern handed to [re.sub]. *)
Definition stripped (c : N) : bool :=
  negb (re_word c || (c =? 45)%N || (c =? 95)%N).

Definition canonicalize (text : pystr) : pystr :=
  let text := str_replace 956 109 (str_replace 181 109 text) in
  let text := str_replace 32 95 text in
  List.filter (λ c, negb (stripped c)) text.

Definition build_view_key (v : view) : pystr :=
  canonicalize (sat v ++ U "_" ++ sec v ++ U "_" ++ im v).

(** *** [int(text)] in base 10 *)

(** ASCII characters stay; above them, spaces and decimal digits of any
    script become their ASCII counterparts, every other character a
    question mark. *)
Definition to_ascii_decimal (c : N) : N :=
  if (c <? 127)%N then c
  else if isspace c then 32%N
  else match decimal_value c with
       | Some d => (48 + Z.to_N d)%N
       | None => 63%N
       end.

(** The white space [int] skips around the number. *)
Definition ascii_space (c : N) : bool := in_range 9 13 c || (c =? 32)%N.

Definition ascii_digit (c : N) : option Z :=
  if in_range 48 57 c then Some (Z.of_N c - 48)%Z else None.

Fixpoint lstrip (s : pystr) : pystr :=
  match s with
  | c :: r => if ascii_space c then lstrip r else s
  | [] => []
  end.

Definition strip (s : pystr) : pystr := rev (lstrip (rev (lstrip s))).

(** Digits after the first one; an underscore is allowed only between
    two digits. *)
Fixpoint more_digits (acc : Z) (s : pystr) : option Z :=
  match s with
  | [] => Some acc
  | c :: r =>
      match ascii_digit c with
      | Some d => more_digits (10 * acc + d) r
      | None =>
          if (c =? 95)%N then
            match r with
            | c' :: r' =>
                match ascii_digit c' with
                | Some d => more_digits (10 * acc + d) r'
                | None => None
                end
            | [] => None
            end
          else None
      end
  end.

Definition unsigned_int (s : pystr) : option Z :=
  match s with
  | c :: r => match ascii_digit c with
              | Some d => more_digits d r
              | None => None
              end
  | [] => None
  end.

(** [None] is [ValueError]. *)
Definition py_int (text : pystr) : option Z :=
  match strip (to_ascii_decimal <$> text) with
  | c :: r =>
      if (c =? 45)%N then Z.opp <$> unsigned_int r
      else if (c =? 43)%N then unsigned_int r
      else unsigned_int (c :: r)
  | [] => None
  end.
End Canonicalization.

(** A table that knows no alphanumeric character, digit or space above
    U+00FF; used to evaluate the definitions on concrete inputs. *)
Definition latin1_table : UnicodeTable :=
  {| isalnum_high := λ _, false;
     decimal_high := λ _, None;
     isspace_high := λ _, false |}.

(* ================================================================== *)
(** ** Numbers *)

(** [max(a, b)] on floats: the second argument wins only when it is
    strictly greater. *)
Definition py_max (a b : Q) : Q := if Qlt_le_dec a b then b else a.

(** [round(x)] with one argument: nearest integer, ties to even. *)
Definition py_round (x : Q) : Z :=
  let f := Qfloor x in
  match (x - inject_Z f ?= 1 # 2)%Q with
  | Lt => f
  | Gt => (f + 1)%Z
  | Eq => if Z.even f then f else (f + 1)%Z
  end.

(* ================================================================== *)
(** ** Runtime options *)

(** An option dictionary: every key may be missing. *)
Record opts := {
  fps : option Q;
  hold_last_sec : option Q;
  clean_materials : option bool;
  stage_only : option bool;
  hold_mode : option pystr
}.

Definition no_opts : opts :=
  {| fps := None; hold_last_sec := None; clean_materials := None;
     stage_only := None; hold_mode := None |}.

Definition shadow {A} (over base : option A) : option A :=
  match over with Some x => Some x | None => base end.

(** [d.update(o)] *)
Definition opts_update (d o : opts) : opts :=
  {| fps := shadow (fps o) (fps d);
     hold_last_sec := shadow (hold_last_sec o) (hold_last_sec d);
     clean_materials := shadow (clean_materials o) (clean_materials d);
     stage_only := shadow (stage_only o) (stage_only d);
     hold_mode := shadow (hold_mode o) (hold_mode d) |}.

Record runtime_cfg := {
  cfg_defaults : option opts;
  cfg_views : option (gmap pystr opts)
}.

Definition builtin_defaults : opts :=
  {| fps := Some (2 # 1)%Q; hold_last_sec := Some (0 # 1)%Q;
     clean_materials := Some false; stage_only := Some false;
     hold_mode := Some (U "hardlink") |}.

(** [load_runtime_cfg]: the file, when it exists and parses, replaces the
    top-level keys it has. *)
Definition load_runtime_cfg (file : option runtime_cfg) : runtime_cfg :=
  let cfg := {| cfg_defaults := Some builtin_defaults; cfg_views := Some ∅ |} in
  match file with
  | Some f => {| cfg_defaults := shadow (cfg_defaults f) (cfg_defaults cfg);
                 cfg_views := shadow (cfg_views f) (cfg_views cfg) |}
  | None => cfg
  end.

(** The four environment variables; unset reads as the empty string. *)
Record environ := {
  ENV_STAGE_ONLY : pystr;
  ENV_CLEAN : pystr;
  ENV_HOLD_LAST : pystr;
  ENV_HOLD_MODE : pystr
}.

Definition truthy (s : pystr) : bool :=
  match s with [] => false | _ => true end.

Section Resolver.
Context {UT : UnicodeTable}.

Definition set_clean (b : bool) (d : opts) : opts :=
  {| fps := fps d; hold_last_sec := hold_last_sec d;
     clean_materials := Some b; stage_only := stage_only d;
     hold_mode := hold_mode d |}.

Definition set_stage_only (b : bool) (d : opts) : opts :=
  {| fps := fps d; hold_last_sec := hold_last_sec d;
     clean_materials := clean_materials d; stage_only := Some b;
     hold_mode := hold_mode d |}.

Definition set_hold (x : Q) (d : opts) : opts :=
  {| fps := fps d; hold_last_sec := Some x;
     clean_materials := clean_materials d; stage_only := stage_only d;
     hold_mode := hold_mode d |}.

Definition set_hold_mode (m : pystr) (d : opts) : opts :=
  {| fps := fps d; hold_last_sec := hold_last_sec d;
     clean_materials := clean_materials d; stage_only := stage_only d;
     hold_mode := Some m |}.

(** The body of the [try] block: [None] when [int] or the division
    raises. *)
Definition hold_from_frames (text : pystr) (d : opts) : option Q :=
  match py_int text with
  | Some frames =>
      let rate := default (2 # 1)%Q (fps d) in
      if Qeq_bool rate (0 # 1) then None
      else Some (inject_Z frames / rate)%Q
  | None => None
  end.

(** The two file layers: a copy of the defaults, updated with the view's
    own dictionary. *)
Definition merged_layers (view_key : pystr) (cfg : runtime_cfg) : opts :=
  let d := opts_update no_opts (default no_opts (cfg_defaults cfg)) in
  opts_update d (default no_opts (default ∅ (cfg_views cfg) !! view_key)).

Definition effective_opts (env : environ) (view_key : pystr)
    (cfg : runtime_cfg) : opts :=
  let d := merged_layers view_key cfg in
  let d := if truthy (ENV_CLEAN env)
           then set_clean (str_eqb (ENV_CLEAN env) (U "1")) d else d in
  let d := if truthy (ENV_STAGE_ONLY env)
           then set_stage_only (str_eqb (ENV_STAGE_ONLY env) (U "1")) d
           else d in
  let d := if truthy (ENV_HOLD_LAST env)
           then match hold_from_frames (ENV_HOLD_LAST env) d with
                | Some x => set_hold x d
                | None => d
                end
           else d in
  let d := if truthy (ENV_HOLD_MODE env)
           then set_hold_mode (ENV_HOLD_MODE env) d else d in
  d.
End Resolver.

(* ================================================================== *)
(** ** Projects *)

Record project := {
  view_name : option pystr;
  view_name_base : option pystr;
  project_path : pystr
}.

(** [a or b] on strings. *)
Definition str_or (a b : pystr) : pystr := if truthy a then a else b.

Section Projects.
Context {UT : UnicodeTable}.

(** [p.get("view_name","") or p.get("view_name_base","")] *)
Definition project_name (p : project) : pystr :=
  str_or (default [] (view_name p)) (default [] (view_name_base p)).

(** The dictionary comprehension of [main]: records are inserted in list
    order. *)
Definition build_projects (projs_raw : list project) : gmap pystr pystr :=
  foldl (λ m p, <[canonicalize (project_name p) := project_path p]> m)
        ∅ projs_raw.

(** [projects.get(key) or projects.get(canonicalize(key))], then the
    test [if proj]. *)
Definition lookup_project (projects : gmap pystr pystr) (key : pystr)
    : option pystr :=
  let first := projects !! key in
  let proj := match first with
              | Some p => if truthy p then Some p
                          else projects !! canonicalize key
              | None => projects !! canonicalize key
              end in
  match proj with
  | Some p => if truthy p then Some p else None
  | None => None
  end.
End Projects.

(* ================================================================== *)
(** ** File system *)

Inductive node :=
  | File (data : list byte)
  | Dir (mtime : Z) (entries : list (pystr * node)).

Abbreviation dir := (list (pystr * node)).

Definition is_dir (x : node) : bool :=
  match x with Dir _ _ => true | File _ => false end.

Definition is_file (x : node) : bool :=
  match x with File _ => true | Dir _ _ => false end.

Definition node_mtime (x : node) : Z :=
  match x with Dir m _ => m | File _ => 0%Z end.

Definition node_entries (x : node) : dir :=
  match x with Dir _ es => es | File _ => [] end.

Fixpoint dir_lookup (name : pystr) (d : dir) : option node :=
  match d with
  | [] => None
  | (n, x) :: r => if str_eqb n name then Some x else dir_lookup name r
  end.

(** Create the entry, or replace it where it stands. *)
Fixpoint dir_write (name : pystr) (x : node) (d : dir) : dir :=
  match d with
  | [] => [(name, x)]
  | (n, y) :: r =>
      if str_eqb n name then (n, x) :: r else (n, y) :: dir_write name x r
  end.

Definition dir_remove (name : pystr) (d : dir) : dir :=
  List.filter (λ e, negb (str_eqb e.1 name)) d.

(** Uncaught exceptions. *)
Inductive exn :=
  | FileExistsError
  | FileNotFoundError
  | IsADirectoryError
  | NotADirectoryError.

Inductive res (A : Type) :=
  | Ok (a : A)
  | Raise (e : exn).
Arguments Ok {A} a.
Arguments Raise {A} e.

#[global] Instance res_bind : MBind res :=
  λ A B k m, match m with Ok a => k a | Raise e => Raise e end.

(** [glob("*.png")] and [glob("frame_*.png")] on the names of a directory. *)
Definition glob_png (name : pystr) : bool :=
  bool_decide (U ".png" `suffix_of` name).

Definition glob_frame (name : pystr) : bool :=
  bool_decide (U "frame_" `prefix_of` name)
  && bool_decide (U ".png" `suffix_of` drop 6 name).

(** Decimal digits of a natural number, most significant first. *)
Fixpoint digits (fuel n : nat) (acc : pystr) : pystr :=
  match fuel with
  | O => acc
  | S fuel' =>
      let acc' := N.of_nat (48 + n mod 10) :: acc in
      if n <? 10 then acc' else digits fuel' (n / 10) acc'
  end.

(** [f"{i:03d}"] *)
Definition format_03d (i : nat) : pystr :=
  let s := digits (S i) i [] in
  replicate (3 - length s) 48%N ++ s.

Definition frame_name (i : nat) : pystr :=
  U "frame_" ++ format_03d i ++ U ".png".

(** Code-point order on strings, the order [sorted] uses on the paths of
    one directory. *)
Fixpoint str_leb (a b : pystr) : bool :=
  match a, b with
  | [], _ => true
  | _ :: _, [] => false
  | x :: a', y :: b' =>
      if (x <? y)%N then true else if (y <? x)%N then false else str_leb a' b'
  end.

Definition name_le (e1 e2 : pystr * node) : Prop := str_leb e1.1 e2.1 = true.

#[global] Instance name_le_dec : RelDecision name_le.
Proof. intros e1 e2. unfold name_le. apply _. Defined.

Definition sorted (es : dir) : dir := merge_sort name_le es.

(** [max(items, key=...)]: the running best is replaced only by a strictly
    greater key. *)
Fixpoint max_from {A} (key : A → Z) (best : A) (items : list A) : A :=
  match items with
  | [] => best
  | x :: r => max_from key (if (key best <? key x)%Z then x else best) r
  end.

Definition py_max_by {A} (key : A → Z) (items : list A) : option A :=
  match items with
  | [] => None
  | x :: r => Some (max_from key x r)
  end.

(** [shutil.copy2(src, dst)] where [dst] is the entry [name] of [d].  A
    destination that is a directory receives the file under the source's
    base name. *)
Definition copy2 (src_name : pystr) (src : option node) (name : pystr)
    (d : dir) : res dir :=
  match src with
  | None => Raise FileNotFoundError
  | Some (Dir _ _) => Raise IsADirectoryError
  | Some (File data) =>
      match dir_lookup name d with
      | Some (Dir m es) =>
          match dir_lookup src_name es with
          | Some (Dir _ _) => Raise IsADirectoryError
          | _ => Ok (dir_write name (Dir m (dir_write src_name (File data) es)) d)
          end
      | _ => Ok (dir_write name (File data) d)
      end
  end.

(** [try_hardlink]: [link_ok] says whether the environment lets [os.link]
    succeed on a regular file.  A link and a copy leave the same bytes
    under the destination name. *)
Definition try_hardlink (link_ok : bool) (src : option node) (name : pystr)
    (d : dir) : bool * dir :=
  match dir_lookup name d with
  | Some (Dir _ _) => (false, d)
  | existing =>
      let d := match existing with
               | Some _ => dir_remove name d
               | None => d
               end in
      match src with
      | Some (File data) =>
          if link_ok then (true, d ++ [(name, File data)]) else (false, d)
      | _ => (false, d)
      end
  end.

Definition copy_or_link (link_ok : bool) (src_name : pystr)
    (src : option node) (name : pystr) (use_hardlink : bool) (d : dir)
    : res dir :=
  if use_hardlink then
    let '(linked, d') := try_hardlink link_ok src name d in
    if linked then Ok d' else copy2 src_name src name d'
  else copy2 src_name src name d.

(** [staging_dir.mkdir(exist_ok=True)].  The modification time of a
    directory named [staging] is never read: the stager excludes it by
    name. *)
Definition mkdir_exist_ok (name : pystr) (d : dir) : res dir :=
  match dir_lookup name d with
  | Some (Dir _ _) => Ok d
  | Some (File _) => Raise FileExistsError
  | None => Ok (d ++ [(name, Dir 0 [])])
  end.

(* ================================================================== *)
(** ** Frame stager *)

Inductive stage_report :=
  | NoRuns
  | NoFrames (source : pystr)
  | Staged (source : pystr) (frames hold : nat).

Definition staged_ok (r : stage_report) : bool :=
  match r with Staged _ _ _ => true | _ => false end.

(** [not items] on a list. *)
Definition is_nil {A} (items : list A) : bool :=
  match items with [] => true | _ => false end.

Definition all_runs (parent : dir) : dir :=
  List.filter (λ e, is_dir e.2 && negb (str_eqb e.1 (U "staging"))) parent.

Definition latest_run_folder (parent : dir) : option (pystr * node) :=
  py_max_by (λ e, node_mtime e.2) (all_runs parent).

(** The frames of a run folder in staging order. *)
Definition source_files (run : node) : dir :=
  sorted (List.filter (λ e, glob_png e.1) (node_entries run)).

Definition hold_frames (fps hold_last_sec : Q) : Z :=
  Z.max 0 (py_round (hold_last_sec * py_max (1 # 10) fps)%Q).

(** The loop over [enumerate(source_files)], from index [i]. *)
Fixpoint stage_frames (link_ok use_hardlink : bool) (i : nat)
    (files : dir) (staging : dir) : res dir :=
  match files with
  | [] => Ok staging
  | (n, x) :: r =>
      staging ← copy_or_link link_ok n (Some x) (frame_name i)
                   use_hardlink staging;
      stage_frames link_ok use_hardlink (S i) r staging
  end.

(** The loop [for k in range(1, hold_frames + 1)], from [k], with [todo]
    slots left; the held frame is read again at every step. *)
Fixpoint hold_loop (link_ok use_hardlink : bool) (last_idx k todo : nat)
    (staging : dir) : res dir :=
  match todo with
  | O => Ok staging
  | S todo' =>
      staging ← copy_or_link link_ok (frame_name last_idx)
                   (dir_lookup (frame_name last_idx) staging)
                   (frame_name (last_idx + k)) use_hardlink staging;
      hold_loop link_ok use_hardlink last_idx (S k) todo' staging
  end.

Definition clean_staging (staging : dir) : dir :=
  List.filter (λ e, negb (glob_frame e.1 && is_file e.2)) staging.

(** The entries of the [staging] subdirectory; none when it is missing. *)
Definition staging_entries (parent : dir) : dir :=
  from_option node_entries [] (dir_lookup (U "staging") parent).

Definition put_staging (staging : dir) (parent : dir) : dir :=
  dir_write (U "staging")
    (Dir (from_option node_mtime 0%Z (dir_lookup (U "staging") parent)) staging)
    parent.

(** The copy of the batch's manifest, when it has one. *)
Definition stage_manifest (run : node) (staging : dir) : res dir :=
  match dir_lookup (U "manifest.json") (node_entries run) with
  | Some m =>
      copy2 (U "manifest.json") (Some m) (U "current_manifest.json") staging
  | None => Ok staging
  end.

Definition stage_from_latest_run (link_ok : bool) (parent : dir)
    (fps hold_last_sec : Q) (hold_mode : pystr) : res (dir * stage_report) :=
  match latest_run_folder parent with
  | None => Ok (parent, NoRuns)
  | Some (run_name, run) =>
      parent ← mkdir_exist_ok (U "staging") parent;
      let staging := clean_staging (staging_entries parent) in
      let files := source_files run in
      if is_nil files then Ok (put_staging staging parent, NoFrames run_name)
      else
        let use_hardlink := str_eqb hold_mode (U "hardlink") in
        staging ← stage_frames link_ok use_hardlink 0 files staging;
        let hold := Z.to_nat (hold_frames fps hold_last_sec) in
        staging ←
          (if 0 <? hold then
             let last_idx := length files - 1 in
             match dir_lookup (frame_name last_idx) staging with
             | Some _ => hold_loop link_ok use_hardlink last_idx 1 hold staging
             | None => Ok staging
             end
           else Ok staging);
        staging ← stage_manifest run staging;
        Ok (put_staging staging parent, Staged run_name (length files) hold)
  end.

(* ================================================================== *)
(** ** Source locator *)

(** A path below [output_root]: the root itself, or one of its children. *)
Inductive loc :=
  | Root
  | Child (name : pystr).

(** [output_root / canonical_key] for a key that holds no path separator
    (canonical keys hold none): joining the empty string or a single dot
    gives the root back. *)
Definition path_join (key : pystr) : loc :=
  if str_eqb key [] || str_eqb key (U ".") then Root else Child key.

Definition loc_is_dir (output_root : dir) (l : loc) : bool :=
  match l with
  | Root => true
  | Child n => from_option is_dir false (dir_lookup n output_root)
  end.

Section Locator.
Context {UT : UnicodeTable}.

(** The loop over [output_root.iterdir()]. *)
Fixpoint scan_children (children : dir) (canonical_key : pystr)
    : option loc :=
  match children with
  | [] => None
  | (n, x) :: r =>
      if is_dir x && str_eqb (canonicalize n) canonical_key
      then Some (Child n)
      else scan_children r canonical_key
  end.

Definition find_parent_dir_for_key (output_root : dir)
    (canonical_key : pystr) : option loc :=
  let direct := path_join canonical_key in
  if loc_is_dir output_root direct then Some direct
  else scan_children output_root canonical_key.
End Locator.

(* ================================================================== *)
(** ** Deployment of one view, and the run *)

(** The output tree and the project directories, each known by the path
    string of its project record. *)
Record world := {
  output_root : dir;
  project_dirs : gmap pystr dir
}.

Inductive manifest_note :=
  | NoManifest
  | ManifestWritten
  | ManifestWarn.

Inductive outcome :=
  | Skipped
  | SourceNotFound
  | StageFailed (r : stage_report)
  | StageOnlyDone (r : stage_report)
  | MaterialsNotFound (r : stage_report)
  | Deployed (r : stage_report) (copied : nat) (m : manifest_note).

(** [parent_dir.iterdir()] *)
Definition read_loc (output_root : dir) (l : loc) : res dir :=
  match l with
  | Root => Ok output_root
  | Child n =>
      match dir_lookup n output_root with
      | Some (Dir _ es) => Ok es
      | Some (File _) => Raise NotADirectoryError
      | None => Raise FileNotFoundError
      end
  end.

Definition write_loc (output_root : dir) (l : loc) (es : dir) : dir :=
  match l with
  | Root => es
  | Child n =>
      dir_write n
        (Dir (from_option node_mtime 0%Z (dir_lookup n output_root)) es)
        output_root
  end.

(** The optional cleaning of the materials folder; a failing [unlink] is
    swallowed. *)
Definition clean_materials_dir (materials : dir) : dir :=
  List.filter (λ e, negb (glob_png e.1 && is_file e.2)) materials.

(** [shutil.copy2(str(frame), str(materials_path))] for every staged
    frame, inside the project directory. *)
Fixpoint copy_frames (frames : dir) (proj : dir) (copied : nat)
    : res (dir * nat) :=
  match frames with
  | [] => Ok (proj, copied)
  | (n, x) :: r =>
      proj ← copy2 n (Some x) (U "materials") proj;
      copy_frames r proj (S copied)
  end.

Definition staged_frames (staging : dir) : dir :=
  sorted (List.filter (λ e, glob_frame e.1) staging).

(** The [try] block of the manifest copy: any exception is a warning. *)
Definition copy_manifest (staging : dir) (proj : dir) : dir * manifest_note :=
  match dir_lookup (U "current_manifest.json") staging with
  | Some m =>
      match copy2 (U "current_manifest.json") (Some m)
              (U "current_manifest.json") proj with
      | Ok proj' => (proj', ManifestWritten)
      | Raise _ => (proj, ManifestWarn)
      end
  | None => (proj, NoManifest)
  end.

Section Orchestrator.
Context {UT : UnicodeTable}.
Variable link_ok : bool.

Definition deploy_latest_frames (view_config : view)
    (project_path_str : pystr) (o : opts) (w : world)
    : res (world * outcome) :=
  let key := build_view_key view_config in
  match find_parent_dir_for_key (output_root w) key with
  | None => Ok (w, SourceNotFound)
  | Some parent_dir =>
      parent ← read_loc (output_root w) parent_dir;
      '(parent, r) ← stage_from_latest_run link_ok parent
                        (default (2 # 1)%Q (fps o))
                        (default (0 # 1)%Q (hold_last_sec o))
                        (default (U "hardlink") (hold_mode o));
      let w := {| output_root := write_loc (output_root w) parent_dir parent;
                  project_dirs := project_dirs w |} in
      if negb (staged_ok r) then Ok (w, StageFailed r)
      else if default false (stage_only o) then Ok (w, StageOnlyDone r)
      else
        match project_dirs w !! project_path_str with
        | None => Ok (w, MaterialsNotFound r)
        | Some proj =>
            match dir_lookup (U "materials") proj with
            | Some (Dir m materials) =>
                let proj :=
                  if default false (clean_materials o)
                  then dir_write (U "materials")
                         (Dir m (clean_materials_dir materials)) proj
                  else proj in
                let staging := staging_entries parent in
                '(proj, copied) ← copy_frames (staged_frames staging) proj 0;
                let '(proj, note) := copy_manifest staging proj in
                Ok ({| output_root := output_root w;
                       project_dirs :=
                         <[project_path_str := proj]> (project_dirs w) |},
                    Deployed r copied note)
            | _ => Ok (w, MaterialsNotFound r)
            end
        end
  end.

(** What a run leaves: both input files must load; then the loop either
    reaches the final summary or is ended by an exception. *)
Inductive run :=
  | InputProblem
  | Finished (w : world) (reports : list (pystr * outcome))
  | Crashed (e : exn) (reports : list (pystr * outcome)).

(** The loop [for view in views] of [main]; [reports] holds the views
    already attempted, latest first. *)
Fixpoint deploy_views (env : environ) (cfg : runtime_cfg)
    (projects : gmap pystr pystr) (views : list view) (w : world)
    (reports : list (pystr * outcome)) : run :=
  match views with
  | [] => Finished w (rev reports)
  | v :: rest =>
      let key := build_view_key v in
      match lookup_project projects key with
      | Some proj =>
          let o := effective_opts env key cfg in
          match deploy_latest_frames v proj o w with
          | Ok (w', out) =>
              deploy_views env cfg projects rest w' ((key, out) :: reports)
          | Raise e => Crashed e (rev reports)
          end
      | None =>
          deploy_views env cfg projects rest w ((key, Skipped) :: reports)
      end
  end.

Definition main (env : environ) (cfg_file : option runtime_cfg)
    (views : option (list view)) (projs_raw : option (list project))
    (w : world) : run :=
  let runtime_cfg := load_runtime_cfg cfg_file in
  match views with
  | None => InputProblem
  | Some views =>
      match projs_raw with
      | None => InputProblem
      | Some projs_raw =>
          let projects := build_projects projs_raw in
          deploy_views env runtime_cfg projects views w []
      end
  end.
End Orchestrator.

(* ================================================================== *)
(** ** Fetcher: the computed parts of [working_fetcher.py] *)

Section Fetcher.
Context {UT : UnicodeTable}.

(** [\d] of a [str] pattern: a decimal digit of any script. *)
Definition re_digit (c : N) : bool :=
  match decimal_value c with Some _ => true | None => false end.

(** Whether [(\d{14})-] matches at the very start of [text]. *)
Definition stamp_here (text : pystr) : bool :=
  (length (take 14 text) =? 14) && forallb re_digit (take 14 text)
  && bool_decide (head (drop 14 text) = Some 45%N).

(** [re.search(r'(\d{14})-', text)]: group 1 of the leftmost match. *)
Fixpoint search_stamp (text : pystr) : option pystr :=
  match text with
  | [] => None
  | _ :: rest =>
      if stamp_here text then Some (take 14 text) else search_stamp rest
  end.

(** [s[a:b]] for [0 <= a <= b]. *)
Definition slice (a b : nat) (s : pystr) : pystr := take (b - a) (drop a s).

Definition format_stamp (dt_str : pystr) : pystr :=
  slice 0 4 dt_str ++ U "-" ++ slice 4 6 dt_str ++ U "-" ++ slice 6 8 dt_str
  ++ U "_" ++ slice 8 10 dt_str ++ U "-" ++ slice 10 12 dt_str ++ U "-"
  ++ slice 12 14 dt_str.

(** The name of the batch folder, from the name of the downloaded
    archive. *)
Definition parse_timestamp (zip_filename : pystr) : pystr :=
  match search_stamp zip_filename with
  | Some dt_str => format_stamp dt_str
  | None => U "download"
  end.
End Fetcher.

Definition str_le (a b : pystr) : Prop := str_leb a b = true.

#[global] Instance str_le_dec : RelDecision str_le.
Proof. intros a b. unfold str_le. apply _. Defined.



(* ================================================================== *)
(** ** Vocabulary of the statements, and example inputs *)

Section Vocabulary.
Context {UT : UnicodeTable}.

(** What survives [canonicalize]: no stripped character, and none of the
    three characters the substitutions rewrite. *)
Definition settled (c : N) : Prop :=
  stripped c = false ∧ c ≠ 181%N ∧ c ≠ 956%N ∧ c ≠ 32%N.

Definition project_key (p : project) : pystr :=
  canonicalize (project_name p).

Definition add_project (m : gmap pystr pystr) (p : project)
    : gmap pystr pystr :=
  <[project_key p := project_path p]> m.

(** The lookup as the specification words it: the direct probe, else the
    first child whose canonicalized name is the key. *)
Definition spec_find_source_dir (output_root : dir) (canonical_key : pystr)
    : option loc :=
  if loc_is_dir output_root (path_join canonical_key)
  then Some (path_join canonical_key)
  else (λ e, Child e.1)
         <$> head (List.filter (λ e, str_eqb (canonicalize e.1) canonical_key)
                     output_root).

(** The same, restricted to the children that are directories. *)
Definition first_matching_dir (output_root : dir) (canonical_key : pystr)
    : option loc :=
  if loc_is_dir output_root (path_join canonical_key)
  then Some (path_join canonical_key)
  else (λ e, Child e.1)
         <$> head (List.filter
                     (λ e, is_dir e.2
                           && str_eqb (canonicalize e.1) canonical_key)
                     output_root).

End Vocabulary.

(** The rate the hold conversion divides by: [d.get("fps", 2.0)] on the
    merged file layers. *)
Definition resolved_fps (view_key : pystr) (cfg : runtime_cfg) : Q :=
  default (2 # 1)%Q (fps (merged_layers view_key cfg)).



Definition cfg_of_defaults (d : opts) : runtime_cfg :=
  {| cfg_defaults := Some d; cfg_views := None |}.

Definition opts_with_fps (rate : Q) : opts :=
  {| fps := Some rate; hold_last_sec := Some (0 # 1)%Q;
     clean_materials := Some true; stage_only := Some false;
     hold_mode := Some (U "hardlink") |}.

Definition env_of_clean (text : pystr) : environ :=
  {| ENV_STAGE_ONLY := []; ENV_CLEAN := text; ENV_HOLD_LAST := [];
     ENV_HOLD_MODE := [] |}.

Definition project_of (name path : pystr) : project :=
  {| view_name := Some name; view_name_base := None; project_path := path |}.

(** The selection as the specification words it: among equal greatest
    keys the last one wins. *)
Fixpoint max_from_last {A} (key : A → Z) (best : A) (items : list A) : A :=
  match items with
  | [] => best
  | x :: r => max_from_last key (if (key best <=? key x)%Z then x else best) r
  end.

Definition spec_latest_run_folder (parent : dir) : option (pystr * node) :=
  match all_runs parent with
  | [] => None
  | x :: r => Some (max_from_last (λ e, node_mtime e.2) x r)
  end.

Definition digit_val (c : N) : nat := N.to_nat c - 48.

(** The number a string of decimal digits writes, leading zeros allowed. *)
Definition str_value (s : pystr) : nat :=
  foldl (λ a c, 10 * a + digit_val c) 0 s.

(** The frames of a batch under their staging names, from index [i]. *)
Fixpoint renumber (i : nat) (files : dir) : dir :=
  match files with
  | [] => []
  | (_, x) :: r => (frame_name i, x) :: renumber (S i) r
  end.

(** The hold slots [k ..] of a held frame. *)
Definition held (last_idx : nat) (x : node) (k todo : nat) : dir :=
  (λ j, (frame_name (last_idx + j), x)) <$> seq k todo.

Definition no_frame_names (d : dir) : Prop :=
  Forall (λ e, glob_frame e.1 = false) d.


(** No directory of the staging folder carries a frame name. *)
Definition no_frame_dirs (staging : dir) : Prop :=
  Forall (λ e, glob_frame e.1 = true → is_file e.2 = true) staging.

(** A view folder with one batch of two frames, listed out of order, and
    no staging directory yet. *)
Definition example_parent : dir :=
  [(U "2024-05-01", Dir 1 [(U "b.png", File ["b"%byte]);
                           (U "a.png", File ["a"%byte]);
                           (U "notes.txt", File [])])].

Definition example_staged : dir :=
  Eval vm_compute in
    match stage_from_latest_run false example_parent (2 # 1) (3 # 1)
            (U "hardlink") with
    | Ok (parent', _) => parent'
    | Raise _ => []
    end.

Definition old_batch : pystr * node :=
  (U "2024-05-01",
   Dir 1 [(U "a.png", File ["o"%byte]);
          (U "manifest.json", File ["1"%byte])]).

Definition new_batch : pystr * node :=
  (U "2024-05-02", Dir 2 [(U "a.png", File ["n"%byte])]).

(** The view folder after the old batch was staged. *)
Definition after_old_batch : dir :=
  Eval vm_compute in
    match stage_from_latest_run true [old_batch] (2 # 1) (0 # 1)
            (U "hardlink") with
    | Ok (parent', _) => parent'
    | Raise _ => []
    end.

(** The same folder after the new batch, which has no manifest, arrived
    and was staged. *)
Definition after_new_batch : dir :=
  Eval vm_compute in
    match stage_from_latest_run true (after_old_batch ++ [new_batch])
            (2 # 1) (0 # 1) (U "hardlink") with
    | Ok (parent', _) => parent'
    | Raise _ => []
    end.

Definition files_only (d : dir) : Prop :=
  Forall (λ e, is_file e.2 = true) d.

(** Every subdirectory holds regular files only. *)
Definition flat (d : dir) : Prop :=
  Forall (λ e, files_only (node_entries e.2)) d.

(** No regular file stands where the staging directory goes. *)
Definition staging_makeable (d : dir) : Prop :=
  match dir_lookup (U "staging") d with
  | Some (File _) => False
  | _ => True
  end.

Definition view_folder_ok (d : dir) : Prop := flat d ∧ staging_makeable d.

Definition world_ok (w : world) : Prop :=
  NoDup (output_root w).*1
  ∧ Forall (λ e, view_folder_ok (node_entries e.2)) (output_root w)
  ∧ map_Forall (λ _ proj, flat proj) (project_dirs w).

(** Three views; the second has no project, the third no source folder. *)
Definition view_of (a b c : string) : view :=
  {| sat := U a; sec := U b; im := U c |}.

Definition example_views : list view :=
  [view_of "GOES" "full" "IR"; view_of "GOES" "conus" "IR";
   view_of "HIMA" "full" "VIS"].

Definition example_projects : list project :=
  [project_of (U "GOES_full_IR") (U "proj/goes");
   project_of (U "HIMA_full_VIS") (U "proj/hima")].

Definition no_env : environ :=
  {| ENV_STAGE_ONLY := []; ENV_CLEAN := []; ENV_HOLD_LAST := [];
     ENV_HOLD_MODE := [] |}.

Definition example_world : world :=
  {| output_root := [(U "GOES_full_IR", Dir 9 example_parent)];
     project_dirs :=
       <[U "proj/goes" := [(U "materials", Dir 3 [(U "frame_999.png", File [])])]]>
         ∅ |}.


Definition stage_only_opts : opts :=
  {| fps := None; hold_last_sec := None; clean_materials := None;
     stage_only := Some true; hold_mode := None |}.

Definition example_stage_only_result : world * outcome :=
  Eval vm_compute in
    match deploy_latest_frames (UT := latin1_table) true
            (view_of "GOES" "full" "IR") (U "proj/goes") stage_only_opts
            example_world with
    | Ok r => r
    | Raise _ => (example_world, Skipped)
    end.

(** What the manifest step leaves under [current_manifest.json], given
    what was there. *)
Definition manifest_entry (run : node) (old : option node) : option node :=
  match dir_lookup (U "manifest.json") (node_entries run) with
  | Some (File data) =>
      Some match old with
           | Some (Dir m es) =>
               Dir m (dir_write (U "manifest.json") (File data) es)
           | _ => File data
           end
  | _ => old
  end.

(** The built-in defaults under a dictionary: what a field-by-field merge
    of the file's defaults over the built-in ones would give. *)
Definition merge_builtin (o : opts) : opts := opts_update builtin_defaults o.

(** A runtime configuration file whose defaults are merged over the
    built-in ones instead of replacing them. *)
Definition deep_defaults (file : runtime_cfg) : runtime_cfg :=
  {| cfg_defaults := Some (merge_builtin (default no_opts (cfg_defaults file)));
     cfg_views := cfg_views file |}.

(** What a deployment reads from an option dictionary, each key with the
    fall-back written at its [opts.get]. *)
Definition opts_reads (o : opts) : Q * Q * pystr * bool * bool :=
  (default (2 # 1)%Q (fps o), default (0 # 1)%Q (hold_last_sec o),
   default (U "hardlink") (hold_mode o), default false (stage_only o),
   default false (clean_materials o)).

(** A directory after the given entries were written into it, in order. *)
Definition write_all (entries : dir) (d : dir) : dir :=
  foldl (λ acc e, dir_write e.1 e.2 acc) d entries.

(** The materials folder a publication starts from: cleaned or not. *)
Definition materials_before (o : opts) (materials : dir) : dir :=
  if default false (clean_materials o) then clean_materials_dir materials
  else materials.

(** Options that hold the last frame for one second and clean the
    materials folder first. *)
Definition clean_hold_opts : opts :=
  {| fps := Some (2 # 1)%Q; hold_last_sec := Some (1 # 1)%Q;
     clean_materials := Some true; stage_only := None; hold_mode := None |}.

(** The example world after the first example view was deployed with
    them. *)
Definition example_deployed : world :=
  Eval vm_compute in
    match deploy_latest_frames (UT := latin1_table) true
            (view_of "GOES" "full" "IR") (U "proj/goes") clean_hold_opts
            example_world with
    | Ok (w', _) => w'
    | Raise _ => example_world
    end.

(* ================================================================== *)
(** ** Theorems *)

Example canonicalize_micro :
  canonicalize (UT := latin1_table)
    (U "GOES_" ++ [181%N] ++ U "sec IR") = U "GOES_msec_IR".
Proof. reflexivity. Qed.

Example py_int_examples :
  py_int (UT := latin1_table) (U " -1_0 ") = Some (-10)%Z
  ∧ py_int (UT := latin1_table) (U "1__0") = None
  ∧ py_int (UT := latin1_table) (U "ten") = None
  ∧ py_int (UT := latin1_table) (U "+7") = Some 7%Z.
Proof. repeat split; reflexivity. Qed.

Example py_round_examples :
  py_round (5 # 2) = 2%Z ∧ py_round (7 # 2) = 4%Z ∧ py_round (-5 # 2) = (-2)%Z
  ∧ py_round (6 # 1) = 6%Z ∧ py_round (13 # 5) = 3%Z.
Proof. repeat split; reflexivity. Qed.

Example frame_name_examples :
  frame_name 0 = U "frame_000.png" ∧ frame_name 42 = U "frame_042.png"
  ∧ frame_name 1234 = U "frame_1234.png"
  ∧ glob_frame (frame_name 7) = true ∧ glob_frame (U "frame.png") = false
  ∧ glob_png (U ".png") = true.
Proof. repeat split; reflexivity. Qed.

Example hold_frames_example : hold_frames (2 # 1) (3 # 1) = 6%Z.
Proof. reflexivity. Qed.

(* ------------------------------------------------------------------ *)
(** *** Canonical keys *)

Section CanonicalizeFacts.
Context {UT : UnicodeTable}.

Lemma replaced_char (c : N) :
  let c' := (if (c =? 181)%N then 109%N else c) in
  let c'' := (if (c' =? 956)%N then 109%N else c') in
  let c''' := (if (c'' =? 32)%N then 95%N else c'') in
  c''' ≠ 181%N ∧ c''' ≠ 956%N ∧ c''' ≠ 32%N.
Proof.
  cbv zeta.
  destruct (N.eqb_spec c 181) as [->|?]; simpl.
  - repeat split; lia.
  - destruct (N.eqb_spec c 956) as [->|?]; simpl.
    + repeat split; lia.
    + destruct (N.eqb_spec c 32) as [->|?]; repeat split; lia.
Qed.

Lemma canonicalize_settled (s : pystr) : Forall settled (canonicalize s).
Proof.
  unfold canonicalize, str_replace. rewrite Forall_forall. intros c Hc.
  apply list_elem_of_In, filter_In in Hc as [Hin Hkeep].
  apply negb_true_iff in Hkeep.
  rewrite <- !list_fmap_compose in Hin.
  apply list_elem_of_In, list_elem_of_fmap in Hin as (x & -> & _).
  split; [exact Hkeep|]. simpl. apply (replaced_char x).
Qed.

Lemma canonicalize_fixes_settled (s : pystr) :
  Forall settled s → canonicalize s = s.
Proof.
  unfold canonicalize, str_replace. induction 1 as [|c s [Hk (H1 & H2 & H3)] _ IH];
    [reflexivity|].
  simpl.
  destruct (N.eqb_spec c 181); [contradiction|].
  destruct (N.eqb_spec c 956); [contradiction|].
  destruct (N.eqb_spec c 32); [contradiction|].
  rewrite Hk. simpl. f_equal. exact IH.
Qed.

(** Below U+0080 the word characters are the ASCII letters, digits and
    the underscore. *)
Lemma ascii_table_checked :
  forallb (λ n, implb (negb (stripped (N.of_nat n)))
                      (ascii_key_char (N.of_nat n))) (seq 0 128) = true.
Proof. vm_compute. reflexivity. Qed.

Lemma ascii_kept_is_key_char (c : N) :
  (c <? 128)%N = true → stripped c = false → ascii_key_char c = true.
Proof.
  intros Hlt Hk. apply N.ltb_lt in Hlt.
  pose proof ascii_table_checked as Htab.
  rewrite forallb_forall in Htab.
  specialize (Htab (N.to_nat c)).
  rewrite N2Nat.id, Hk in Htab. apply Htab.
  apply in_seq. lia.
Qed.

(** The key of a view always holds an underscore. *)
Lemma build_view_key_has_underscore (v : view) : 95%N ∈ build_view_key v.
Proof.
  unfold build_view_key, canonicalize, str_replace.
  apply list_elem_of_In, filter_In. split.
  - rewrite <- !list_fmap_compose. apply list_elem_of_In, list_elem_of_fmap.
    exists 95%N. split; [reflexivity|].
    rewrite !elem_of_app. right. left.
    change (U "_") with [95%N]. left.
  - reflexivity.
Qed.
End CanonicalizeFacts.

Section CanonicalizeClaims.
Context {UT : UnicodeTable}.

(** C8: for every string [s],
    [canonicalize (canonicalize s) = canonicalize s]. *)
Theorem canonicalize_idempotent (s : pystr) :
  canonicalize (canonicalize s) = canonicalize s.
Proof. apply canonicalize_fixes_settled, canonicalize_settled. Qed.

(** C3, as amended: [canonicalize] is a total function, and every
    character of its output is a word character in Python's Unicode sense
    (an alphanumeric character of any script, or the underscore) or the
    hyphen; the ASCII characters among them all lie in [A-Za-z0-9_-]. *)
Theorem canonicalize_charset (s : pystr) :
  Forall (λ c, (re_word c || (c =? 45)%N) = true
               ∧ implb (c <? 128)%N (ascii_key_char c) = true)
         (canonicalize s).
Proof.
  eapply Forall_impl; [apply canonicalize_settled|].
  intros c [Hk _]. split.
  - unfold stripped in Hk. apply negb_false_iff in Hk.
    rewrite orb_true_iff in Hk. destruct Hk as [Hk|Hk]; [exact Hk|].
    unfold re_word. apply N.eqb_eq in Hk as ->. rewrite orb_true_r. reflexivity.
  - destruct (c <? 128)%N eqn:Hlt; [|reflexivity].
    simpl. apply ascii_kept_is_key_char; assumption.
Qed.
End CanonicalizeClaims.

(** C3, as stated, fails at the one-letter string U+00E9 (e with acute
    accent): [\w] keeps it, whatever the Unicode table says above U+00FF. *)
Lemma canonicalize_keeps_non_ascii_letter :
  ¬ ∃ UT : UnicodeTable,
      ∀ s, Forall (λ c, ascii_key_char c = true) (canonicalize s).
Proof.
  intros [UT Hall]. specialize (Hall [233%N]).
  change (canonicalize [233%N]) with [233%N] in Hall.
  apply Forall_inv in Hall. discriminate Hall.
Qed.

(* ------------------------------------------------------------------ *)
(** *** Option resolution *)

Section ResolverFacts.
Context {UT : UnicodeTable}.


Lemma fps_effective (env : environ) (key : pystr) (cfg : runtime_cfg) :
  fps (effective_opts env key cfg) = fps (merged_layers key cfg).
Proof.
  unfold effective_opts.
  destruct (truthy (ENV_CLEAN env)), (truthy (ENV_STAGE_ONLY env)),
    (truthy (ENV_HOLD_LAST env)), (truthy (ENV_HOLD_MODE env));
    simpl; repeat (match goal with |- context [hold_from_frames ?a ?b] =>
                     destruct (hold_from_frames a b) end); reflexivity.
Qed.

(** The hold field after the environment layer, in terms of the try
    block's result on the merged layers. *)
Lemma hold_effective (env : environ) (key : pystr) (cfg : runtime_cfg) :
  hold_last_sec (effective_opts env key cfg)
  = if truthy (ENV_HOLD_LAST env)
    then match py_int (ENV_HOLD_LAST env) with
         | Some frames =>
             if Qeq_bool (resolved_fps key cfg) (0 # 1)
             then hold_last_sec (merged_layers key cfg)
             else Some (inject_Z frames / resolved_fps key cfg)%Q
         | None => hold_last_sec (merged_layers key cfg)
         end
    else hold_last_sec (merged_layers key cfg).
Proof.
  unfold effective_opts, hold_from_frames, resolved_fps.
  destruct (truthy (ENV_CLEAN env)), (truthy (ENV_STAGE_ONLY env)),
    (truthy (ENV_HOLD_LAST env)), (truthy (ENV_HOLD_MODE env)); simpl;
    try reflexivity;
    destruct (py_int (ENV_HOLD_LAST env)); simpl; try reflexivity;
    destruct (Qeq_bool _ _); reflexivity.
Qed.


(** C7, as amended: a hold override that does not parse as an integer is
    ignored and the prior layer's hold time is kept; an empty (unset)
    override leaves its field as the prior layer had it; a non-empty
    clean-materials or stage-only value is never ignored, it sets the flag
    to whether the value is the string "1"; a non-empty hold mode is taken
    as it is; the fps is never touched.  The resolver is a total
    function: it never fails. *)
Theorem env_override_rules (env : environ) (key : pystr) (cfg : runtime_cfg) :
  (py_int (ENV_HOLD_LAST env) = None →
     hold_last_sec (effective_opts env key cfg)
     = hold_last_sec (merged_layers key cfg))
  ∧ clean_materials (effective_opts env key cfg)
    = (if truthy (ENV_CLEAN env)
       then Some (str_eqb (ENV_CLEAN env) (U "1"))
       else clean_materials (merged_layers key cfg))
  ∧ stage_only (effective_opts env key cfg)
    = (if truthy (ENV_STAGE_ONLY env)
       then Some (str_eqb (ENV_STAGE_ONLY env) (U "1"))
       else stage_only (merged_layers key cfg))
  ∧ hold_mode (effective_opts env key cfg)
    = (if truthy (ENV_HOLD_MODE env)
       then Some (ENV_HOLD_MODE env)
       else hold_mode (merged_layers key cfg))
  ∧ fps (effective_opts env key cfg) = fps (merged_layers key cfg).
Proof.
  split; [|split; [|split; [|split]]].
  - intros Hbad. rewrite hold_effective, Hbad.
    destruct (truthy _); reflexivity.
  - unfold effective_opts.
    destruct (truthy (ENV_CLEAN env)), (truthy (ENV_STAGE_ONLY env)),
      (truthy (ENV_HOLD_LAST env)), (truthy (ENV_HOLD_MODE env)); simpl;
      repeat (match goal with |- context [hold_from_frames ?a ?b] =>
                destruct (hold_from_frames a b) end); reflexivity.
  - unfold effective_opts.
    destruct (truthy (ENV_CLEAN env)), (truthy (ENV_STAGE_ONLY env)),
      (truthy (ENV_HOLD_LAST env)), (truthy (ENV_HOLD_MODE env)); simpl;
      repeat (match goal with |- context [hold_from_frames ?a ?b] =>
                destruct (hold_from_frames a b) end); reflexivity.
  - unfold effective_opts.
    destruct (truthy (ENV_CLEAN env)), (truthy (ENV_STAGE_ONLY env)),
      (truthy (ENV_HOLD_LAST env)), (truthy (ENV_HOLD_MODE env)); simpl;
      repeat (match goal with |- context [hold_from_frames ?a ?b] =>
                destruct (hold_from_frames a b) end); reflexivity.
  - apply fps_effective.
Qed.
End ResolverFacts.



(** C7, as stated, fails for the clean-materials value "maybe": the prior
    layer says true, the resolved flag is false. *)
Lemma malformed_clean_flag_overrides :
  clean_materials (merged_layers (U "k") (cfg_of_defaults (opts_with_fps (2 # 1))))
  = Some true
  ∧ clean_materials
      (effective_opts (UT := latin1_table) (env_of_clean (U "maybe")) (U "k")
         (cfg_of_defaults (opts_with_fps (2 # 1))))
    = Some false.
Proof. split; reflexivity. Qed.

(* ------------------------------------------------------------------ *)
(** *** The project map *)

Section ProjectFacts.
Context {UT : UnicodeTable}.

Lemma build_projects_foldl (l : list project) :
  build_projects l = foldl add_project ∅ l.
Proof. reflexivity. Qed.

(** A binding survives the records that do not use its key. *)
Lemma add_projects_keep (l : list project) (m : gmap pystr pystr)
    (k v : pystr) :
  m !! k = Some v → k ∉ project_key <$> l →
  foldl add_project m l !! k = Some v.
Proof.
  revert m. induction l as [|x r IH]; intros m Hm Hk; [exact Hm|].
  simpl. rewrite fmap_cons, not_elem_of_cons in Hk. destruct Hk as [Hne Hk].
  apply IH; [|exact Hk].
  unfold add_project. rewrite lookup_insert_ne; [exact Hm|congruence].
Qed.

(** A binding that a later record overwrites leaves no trace. *)
Lemma add_projects_shadowed (l : list project) (m : gmap pystr pystr)
    (k v : pystr) :
  k ∈ project_key <$> l →
  foldl add_project (<[k := v]> m) l = foldl add_project m l.
Proof.
  revert m. induction l as [|x r IH]; intros m Hk.
  - apply elem_of_nil in Hk. contradiction.
  - simpl. unfold add_project at 2 4.
    destruct (decide (project_key x = k)) as [->|Hne].
    + rewrite insert_insert_eq. reflexivity.
    + rewrite fmap_cons, elem_of_cons in Hk.
      destruct Hk as [Hk|Hk]; [congruence|].
      rewrite insert_insert_ne by congruence. apply IH, Hk.
Qed.

(** C10: when a project record [q] is followed in the list by a record
    [p] whose view name canonicalizes to the same key, [p] being the last
    record with that key, the project map binds the key to [p]'s
    project_path only; the map, and with it the whole run, is the one
    obtained without [q]: the collision is not reported and [q]'s path is
    never used. *)
Theorem project_collision_last_wins (l1 l2 l3 : list project)
    (q p : project) :
  project_key q = project_key p →
  project_key p ∉ project_key <$> l3 →
  build_projects (l1 ++ q :: l2 ++ p :: l3) !! project_key p
  = Some (project_path p)
  ∧ build_projects (l1 ++ q :: l2 ++ p :: l3)
    = build_projects (l1 ++ l2 ++ p :: l3)
  ∧ ∀ link_ok env cfg_file views w,
      main link_ok env cfg_file views (Some (l1 ++ q :: l2 ++ p :: l3)) w
      = main link_ok env cfg_file views (Some (l1 ++ l2 ++ p :: l3)) w.
Proof.
  intros Hqp Hlast.
  assert (Hsame : build_projects (l1 ++ q :: l2 ++ p :: l3)
                  = build_projects (l1 ++ l2 ++ p :: l3)).
  { rewrite !build_projects_foldl.
    rewrite (foldl_app _ l1 (q :: _)), (foldl_app _ l1 (l2 ++ _)). simpl.
    unfold add_project at 2. apply add_projects_shadowed.
    rewrite Hqp, fmap_app, fmap_cons, elem_of_app, elem_of_cons. auto. }
  split; [|split].
  - rewrite Hsame, build_projects_foldl, app_assoc, foldl_app. simpl.
    apply add_projects_keep; [|exact Hlast].
    unfold add_project. apply lookup_insert_eq.
  - exact Hsame.
  - intros. unfold main. destruct views; [|reflexivity].
    rewrite Hsame. reflexivity.
Qed.
End ProjectFacts.

Lemma project_collision_last_wins_witness :
  build_projects (UT := latin1_table)
    [project_of [71; 181]%N (U "first"); project_of (U "Gm") (U "second")]
  !! U "Gm" = Some (U "second").
Proof.
  apply (project_collision_last_wins (UT := latin1_table) [] [] []
           (project_of [71; 181]%N (U "first")) (project_of (U "Gm") (U "second"))).
  - reflexivity.
  - apply not_elem_of_nil.
Defined.

(* ------------------------------------------------------------------ *)
(** *** Source lookup *)

Section LocatorFacts.
Context {UT : UnicodeTable}.

Lemma scan_children_head (children : dir) (key : pystr) :
  scan_children children key
  = (λ e, Child e.1)
      <$> head (List.filter
                  (λ e, is_dir e.2 && str_eqb (canonicalize e.1) key)
                  children).
Proof.
  induction children as [|[n x] r IH]; [reflexivity|].
  simpl. destruct (is_dir x && str_eqb (canonicalize n) key); [reflexivity|].
  exact IH.
Qed.

(** C9, as amended: [find_parent_dir_for_key] first probes
    [output_root/canonical_key] and returns it when it is a directory;
    otherwise it returns the first immediate child of [output_root] that
    is a directory and whose name, after canonicalization, equals the key
    (children that are not directories are passed over), and not-found
    when there is none.  In particular a source folder named with a raw
    micro sign, GOES_µsec_IR, is found with the key GOES_msec_IR. *)
Theorem find_parent_dir_for_key_spec (output_root : dir) (key : pystr) :
  find_parent_dir_for_key output_root key = first_matching_dir output_root key
  ∧ ∀ m es,
      find_parent_dir_for_key
        [(U "GOES_" ++ [181%N] ++ U "sec_IR", Dir m es)] (U "GOES_msec_IR")
      = Some (Child (U "GOES_" ++ [181%N] ++ U "sec_IR")).
Proof.
  split.
  - unfold find_parent_dir_for_key, first_matching_dir.
    destruct (loc_is_dir _ _); [reflexivity|]. apply scan_children_head.
  - intros m es. reflexivity.
Qed.
End LocatorFacts.

(** C9, as stated, fails when the only child with a matching name is a
    regular file: the scan passes over it and the lookup is not-found,
    whatever the Unicode table says above U+00FF. *)
Lemma find_parent_dir_skips_files :
  ¬ ∃ UT : UnicodeTable,
      ∀ output_root key,
        find_parent_dir_for_key output_root key
        = spec_find_source_dir output_root key.
Proof.
  intros [UT Hall].
  specialize (Hall [(U "GOES_" ++ [181%N] ++ U "sec_IR", File [])]
                (U "GOES_msec_IR")).
  discriminate Hall.
Qed.

(* ------------------------------------------------------------------ *)
(** *** Selection of the latest batch *)

Section MaxFacts.
Context {A : Type} (key : A → Z).

Lemma max_from_ge (items : list A) (best : A) :
  (key best ≤ key (max_from key best items))%Z.
Proof.
  revert best. induction items as [|x r IH]; intros best; simpl; [lia|].
  destruct (Z.ltb_spec (key best) (key x)).
  - specialize (IH x). lia.
  - apply IH.
Qed.

(** The result of [max] is the first item that carries the greatest key. *)
Lemma max_from_first (items : list A) (best : A) :
  ∃ pre post,
    best :: items = pre ++ max_from key best items :: post
    ∧ Forall (λ x, (key x < key (max_from key best items))%Z) pre
    ∧ Forall (λ x, (key x ≤ key (max_from key best items))%Z) post.
Proof.
  revert best. induction items as [|x r IH]; intros best; simpl.
  - exists [], []. repeat split; constructor.
  - destruct (Z.ltb_spec (key best) (key x)) as [Hlt|Hge].
    + destruct (IH x) as (pre & post & Heq & Hpre & Hpost).
      exists (best :: pre), post. split; [simpl; congruence|].
      split; [|exact Hpost]. constructor; [|exact Hpre].
      pose proof (max_from_ge r x). lia.
    + destruct (IH best) as (pre & post & Heq & Hpre & Hpost).
      destruct pre as [|p0 pre].
      * simpl in Heq. injection Heq as Hb Hr.
        exists [], (x :: post). split; [simpl; congruence|].
        split; [constructor|]. constructor; [|exact Hpost].
        rewrite <- Hb. lia.
      * simpl in Heq. injection Heq as Hb Hr. subst p0.
        exists (best :: x :: pre), post. split; [simpl; congruence|].
        split; [|exact Hpost].
        apply Forall_cons in Hpre as [Hbest Hpre].
        constructor; [exact Hbest|]. constructor; [lia|exact Hpre].
Qed.
End MaxFacts.

(** C4, as amended: the selected latest batch is an immediate
    subdirectory of [parent_dir] other than [staging] with the greatest
    modification time, and when several candidates share that greatest
    time, the one the directory walk returns first is selected (every
    candidate walked before it is strictly older); there is a selection
    exactly when there is a candidate. *)
Theorem latest_run_folder_first_greatest (parent : dir) :
  (∀ e, e ∈ all_runs parent
        ↔ e ∈ parent ∧ is_dir e.2 = true ∧ e.1 ≠ U "staging")
  ∧ match latest_run_folder parent with
    | None => all_runs parent = []
    | Some latest =>
        ∃ pre post,
          all_runs parent = pre ++ latest :: post
          ∧ Forall (λ e, (node_mtime e.2 < node_mtime latest.2)%Z) pre
          ∧ Forall (λ e, (node_mtime e.2 ≤ node_mtime latest.2)%Z) post
    end.
Proof.
  split.
  - intros e. unfold all_runs.
    rewrite !list_elem_of_In, filter_In, andb_true_iff, negb_true_iff.
    unfold str_eqb. rewrite bool_decide_eq_false. tauto.
  - unfold latest_run_folder, py_max_by.
    destruct (all_runs parent) as [|x r]; [reflexivity|].
    apply (max_from_first (λ e : pystr * node, node_mtime e.2)).
Qed.

(** C4, as stated, fails on two batches with the same modification time:
    the first one walked is selected, not the last. *)
Lemma latest_run_folder_tie_keeps_first :
  latest_run_folder [(U "a", Dir 5 []); (U "b", Dir 5 [])]
  = Some (U "a", Dir 5 [])
  ∧ spec_latest_run_folder [(U "a", Dir 5 []); (U "b", Dir 5 [])]
    = Some (U "b", Dir 5 []).
Proof. split; reflexivity. Qed.

(* ------------------------------------------------------------------ *)
(** *** Frame names *)

Lemma digits_value (fuel n : nat) (acc : pystr) :
  n < fuel →
  foldl (λ a c, 10 * a + digit_val c) 0 (digits fuel n acc)
  = foldl (λ a c, 10 * a + digit_val c) n acc.
Proof.
  revert n acc. induction fuel as [|fuel IH]; intros n acc Hlt; [lia|].
  assert (Hd : digit_val (N.of_nat (48 + n mod 10)) = n mod 10).
  { unfold digit_val. rewrite Nat2N.id. lia. }
  cbn [digits].
  destruct (Nat.ltb_spec n 10) as [Hs|Hb].
  - cbn [foldl]. rewrite Hd, Nat.mod_small by lia. reflexivity.
  - rewrite IH.
    + cbn [foldl]. rewrite Hd. f_equal.
      pose proof (Nat.div_mod_eq n 10). lia.
    + pose proof (Nat.div_lt n 10). lia.
Qed.

Lemma format_03d_value (i : nat) : str_value (format_03d i) = i.
Proof.
  unfold str_value, format_03d. rewrite foldl_app.
  set (k := 3 - _). clearbody k.
  replace (foldl _ 0 (replicate k 48%N)) with 0.
  - rewrite digits_value by lia. reflexivity.
  - induction k as [|k IH]; [reflexivity|]. simpl. exact IH.
Qed.

Lemma frame_name_inj (i j : nat) : frame_name i = frame_name j → i = j.
Proof.
  unfold frame_name. intros Heq.
  apply app_inv_head in Heq.
  assert (Hlen : length (format_03d i) = length (format_03d j)).
  { apply (f_equal length) in Heq. rewrite !length_app in Heq. lia. }
  apply app_inj_1 in Heq as [Heq _]; [|exact Hlen].
  rewrite <- (format_03d_value i), <- (format_03d_value j), Heq. reflexivity.
Qed.

Lemma glob_frame_frame_name (i : nat) : glob_frame (frame_name i) = true.
Proof.
  unfold glob_frame, frame_name. apply andb_true_iff. split.
  - apply bool_decide_eq_true. apply prefix_app_r. reflexivity.
  - apply bool_decide_eq_true.
    change 6 with (length (U "frame_")). rewrite drop_app_length.
    apply suffix_app_r. reflexivity.
Qed.

(* ------------------------------------------------------------------ *)
(** *** Directories *)

Lemma str_eqb_true (a b : pystr) : str_eqb a b = true ↔ a = b.
Proof. unfold str_eqb. apply bool_decide_eq_true. Qed.

Lemma str_eqb_false (a b : pystr) : str_eqb a b = false ↔ a ≠ b.
Proof. unfold str_eqb. apply bool_decide_eq_false. Qed.

Lemma str_eqb_refl (a : pystr) : str_eqb a a = true.
Proof. apply str_eqb_true. reflexivity. Qed.

Lemma dir_lookup_app (name : pystr) (d1 d2 : dir) :
  dir_lookup name (d1 ++ d2)
  = match dir_lookup name d1 with
    | Some x => Some x
    | None => dir_lookup name d2
    end.
Proof.
  induction d1 as [|[n x] r IH]; [reflexivity|].
  simpl. destruct (str_eqb n name); [reflexivity|exact IH].
Qed.

Lemma dir_lookup_None (name : pystr) (d : dir) :
  dir_lookup name d = None ↔ name ∉ d.*1.
Proof.
  induction d as [|[n x] r IH]; simpl.
  - split; [intros _; apply not_elem_of_nil|reflexivity].
  - rewrite not_elem_of_cons. destruct (str_eqb n name) eqn:E.
    + apply str_eqb_true in E. split; [discriminate|]. intros [Hne _].
      congruence.
    + apply str_eqb_false in E. rewrite IH. split; [|tauto].
      intros Hn. split; [congruence|exact Hn].
Qed.

Lemma dir_lookup_elem (name : pystr) (d : dir) (x : node) :
  dir_lookup name d = Some x → (name, x) ∈ d.
Proof.
  induction d as [|[n y] r IH]; simpl; [discriminate|].
  destruct (str_eqb n name) eqn:E.
  - apply str_eqb_true in E. intros [= ->]. subst. left.
  - intros Hl. right. apply IH, Hl.
Qed.

Lemma dir_write_fresh (name : pystr) (x : node) (d : dir) :
  dir_lookup name d = None → dir_write name x d = d ++ [(name, x)].
Proof.
  induction d as [|[n y] r IH]; simpl; [reflexivity|].
  destruct (str_eqb n name); [discriminate|].
  intros Hl. rewrite IH by exact Hl. reflexivity.
Qed.

Lemma dir_lookup_write_eq (name : pystr) (x : node) (d : dir) :
  dir_lookup name (dir_write name x d) = Some x.
Proof.
  induction d as [|[n y] r IH]; simpl.
  - rewrite str_eqb_refl. reflexivity.
  - destruct (str_eqb n name) eqn:E; simpl; rewrite E; [reflexivity|exact IH].
Qed.

Lemma dir_lookup_write_ne (name other : pystr) (x : node) (d : dir) :
  name ≠ other →
  dir_lookup other (dir_write name x d) = dir_lookup other d.
Proof.
  intros Hne. induction d as [|[n y] r IH]; simpl.
  - apply str_eqb_false in Hne. rewrite Hne. reflexivity.
  - destruct (str_eqb n name) eqn:E; simpl.
    + apply str_eqb_true in E. subst n.
      apply str_eqb_false in Hne. rewrite Hne. reflexivity.
    + rewrite IH. reflexivity.
Qed.


(** The entries a glob pattern selects are untouched by a write under a
    name outside the pattern. *)
Lemma filter_dir_write_other (pat : pystr → bool) (name : pystr) (x : node)
    (d : dir) :
  pat name = false →
  List.filter (λ e, pat e.1) (dir_write name x d)
  = List.filter (λ e, pat e.1) d.
Proof.
  intros Hp. induction d as [|[n y] r IH]; simpl.
  - rewrite Hp. reflexivity.
  - destruct (str_eqb n name) eqn:E; simpl.
    + apply str_eqb_true in E. subst n. rewrite Hp. reflexivity.
    + rewrite IH. reflexivity.
Qed.

(* ------------------------------------------------------------------ *)
(** *** Copies and links into staging *)

Lemma copy2_writes (src_name name : pystr) (src : option node) (d d' : dir) :
  copy2 src_name src name d = Ok d' → ∃ x, d' = dir_write name x d.
Proof.
  unfold copy2. destruct src as [[data|m es]|]; try discriminate.
  destruct (dir_lookup name d) as [[data'|m es]|].
  - intros [= <-]. eauto.
  - destruct (dir_lookup src_name es) as [[?|? ?]|]; try discriminate;
      intros [= <-]; eauto.
  - intros [= <-]. eauto.
Qed.

Lemma copy_or_link_fresh (link_ok use_hardlink : bool) (src_name name : pystr)
    (data : list byte) (d : dir) :
  dir_lookup name d = None →
  copy_or_link link_ok src_name (Some (File data)) name use_hardlink d
  = Ok (d ++ [(name, File data)]).
Proof.
  intros Hfresh. unfold copy_or_link, try_hardlink, copy2. rewrite Hfresh.
  destruct use_hardlink, link_ok; try reflexivity;
    rewrite ?Hfresh, dir_write_fresh by exact Hfresh; reflexivity.
Qed.

Lemma copy_or_link_dir_source (link_ok use_hardlink : bool)
    (src_name name : pystr) (m : Z) (es : dir) (d : dir) :
  dir_lookup name d = None →
  copy_or_link link_ok src_name (Some (Dir m es)) name use_hardlink d
  = Raise IsADirectoryError.
Proof.
  intros Hfresh. unfold copy_or_link, try_hardlink, copy2. rewrite Hfresh.
  destruct use_hardlink; reflexivity.
Qed.

Lemma renumber_names (i : nat) (files : dir) :
  (renumber i files).*1 = frame_name <$> seq i (length files).
Proof.
  revert i. induction files as [|[n x] r IH]; intros i; [reflexivity|].
  simpl. rewrite IH. reflexivity.
Qed.


Lemma renumber_lookup (i j : nat) (files : dir) :
  dir_lookup (frame_name (i + j)) (renumber i files) = snd <$> files !! j.
Proof.
  revert i j. induction files as [|[n x] r IH]; intros i j; [reflexivity|].
  simpl. destruct j as [|j].
  - rewrite Nat.add_0_r, str_eqb_refl. reflexivity.
  - destruct (str_eqb _ _) eqn:E.
    + apply str_eqb_true, frame_name_inj in E. lia.
    + replace (i + S j) with (S i + j) by lia. apply IH.
Qed.

Lemma frame_name_fresh (base written : dir) (i n : nat) :
  no_frame_names base →
  written.*1 = frame_name <$> seq 0 i →
  i ≤ n →
  dir_lookup (frame_name n) (base ++ written) = None.
Proof.
  intros Hbase Hw Hle. apply dir_lookup_None.
  rewrite fmap_app, elem_of_app. intros [Hin|Hin].
  - apply list_elem_of_fmap in Hin as ([n' x] & Hn & Hin). simpl in Hn.
    unfold no_frame_names in Hbase. rewrite Forall_forall in Hbase.
    specialize (Hbase _ Hin). simpl in Hbase.
    rewrite <- Hn, glob_frame_frame_name in Hbase. discriminate.
  - rewrite Hw in Hin. apply list_elem_of_fmap in Hin as (j & Hj & Hin).
    apply frame_name_inj in Hj. subst j.
    apply list_elem_of_In, in_seq in Hin. lia.
Qed.

(** Staging the frames of a batch into a directory that holds no frame
    name beyond the ones already written appends them in order; a
    directory among the sources raises. *)
Lemma stage_frames_eq (link_ok use_hardlink : bool) (files base : dir) :
  no_frame_names base →
  ∀ (i : nat) (written : dir),
    written.*1 = frame_name <$> seq 0 i →
    stage_frames link_ok use_hardlink i files (base ++ written)
    = if forallb (λ e, is_file e.2) files
      then Ok (base ++ written ++ renumber i files)
      else Raise IsADirectoryError.
Proof.
  intros Hbase. induction files as [|[n x] r IH]; intros i written Hw.
  - simpl. rewrite app_nil_r. reflexivity.
  - simpl.
    pose proof (frame_name_fresh base written i i Hbase Hw (le_n _)) as Hfresh.
    destruct x as [data|m es]; simpl.
    + rewrite copy_or_link_fresh by exact Hfresh. simpl.
      rewrite <- app_assoc.
      rewrite (IH (S i) (written ++ [(frame_name i, File data)])).
      * rewrite <- app_assoc. reflexivity.
      * rewrite fmap_app, Hw, seq_S, fmap_app. reflexivity.
    + rewrite copy_or_link_dir_source by exact Hfresh. reflexivity.
Qed.

Lemma hold_loop_eq (link_ok use_hardlink : bool) (base : dir)
    (last_idx : nat) (data : list byte) :
  no_frame_names base →
  ∀ (todo k : nat) (written : dir),
    written.*1 = frame_name <$> seq 0 (last_idx + k) →
    dir_lookup (frame_name last_idx) (base ++ written) = Some (File data) →
    hold_loop link_ok use_hardlink last_idx k todo (base ++ written)
    = Ok (base ++ written ++ held last_idx (File data) k todo).
Proof.
  intros Hbase. induction todo as [|todo IH]; intros k written Hw Hlast.
  - simpl. unfold held. simpl. rewrite app_nil_r. reflexivity.
  - simpl. rewrite Hlast.
    rewrite copy_or_link_fresh
      by (eapply frame_name_fresh; [exact Hbase|exact Hw|lia]).
    simpl. rewrite <- app_assoc.
    rewrite (IH (S k) (written ++ [(frame_name (last_idx + k), File data)])).
    + unfold held. simpl. rewrite <- app_assoc. reflexivity.
    + rewrite fmap_app, Hw. replace (last_idx + S k) with (S (last_idx + k)) by lia.
      rewrite seq_S, fmap_app. reflexivity.
    + rewrite app_assoc, dir_lookup_app, Hlast. reflexivity.
Qed.

(* ------------------------------------------------------------------ *)
(** *** The hold count *)




(* ------------------------------------------------------------------ *)
(** *** What staging leaves *)

Lemma clean_staging_no_frame_names (staging : dir) :
  no_frame_dirs staging → no_frame_names (clean_staging staging).
Proof.
  unfold no_frame_dirs, no_frame_names, clean_staging.
  rewrite !Forall_forall. intros Hnd e Hin.
  apply list_elem_of_In, filter_In in Hin as [Hin Hkeep].
  apply list_elem_of_In in Hin. specialize (Hnd e Hin).
  destruct (glob_frame e.1); [|reflexivity].
  rewrite Hnd in Hkeep by reflexivity. discriminate Hkeep.
Qed.

Lemma mkdir_exist_ok_spec (name : pystr) (d d' : dir) :
  mkdir_exist_ok name d = Ok d' →
  ∃ m, dir_lookup name d'
       = Some (Dir m (from_option node_entries [] (dir_lookup name d)))
       ∧ (d' = d ∨ (dir_lookup name d = None ∧ d' = d ++ [(name, Dir 0 [])])).
Proof.
  unfold mkdir_exist_ok. destruct (dir_lookup name d) as [[data|m es]|] eqn:E;
    [discriminate| |]; intros [= <-].
  - exists m. split; [exact E|]. left. reflexivity.
  - exists 0%Z. split; [|right; split; reflexivity].
    rewrite dir_lookup_app, E. simpl. rewrite str_eqb_refl. reflexivity.
Qed.

Lemma filter_frames_all (d : dir) :
  Forall (λ e, glob_frame e.1 = true) d →
  List.filter (λ e, glob_frame e.1) d = d.
Proof.
  induction 1 as [|e r He _ IH]; [reflexivity|].
  simpl. rewrite He, IH. reflexivity.
Qed.

Lemma filter_frames_none (d : dir) :
  no_frame_names d → List.filter (λ e, glob_frame e.1) d = [].
Proof.
  induction 1 as [|e r He _ IH]; [reflexivity|].
  simpl. rewrite He, IH. reflexivity.
Qed.

Lemma renumber_frames (i : nat) (files : dir) :
  Forall (λ e, glob_frame e.1 = true) (renumber i files).
Proof.
  revert i. induction files as [|[n x] r IH]; intros i; constructor.
  - apply glob_frame_frame_name.
  - apply IH.
Qed.

Lemma held_frames (last_idx : nat) (x : node) (k todo : nat) :
  Forall (λ e, glob_frame e.1 = true) (held last_idx x k todo).
Proof.
  unfold held. apply Forall_fmap, Forall_forall. intros j _.
  apply glob_frame_frame_name.
Qed.

Lemma held_names (last_idx : nat) (x : node) (k todo : nat) :
  (held last_idx x k todo).*1 = frame_name <$> seq (last_idx + k) todo.
Proof.
  unfold held. rewrite <- list_fmap_compose, <- fmap_add_seq.
  rewrite <- list_fmap_compose. reflexivity.
Qed.

(** The frame entries of [base ++ frames ++ holds]. *)
Lemma filter_staged (base files : dir) (last_idx : nat) (x : node)
    (hold : nat) :
  no_frame_names base →
  List.filter (λ e, glob_frame e.1)
    (base ++ renumber 0 files ++ held last_idx x 1 hold)
  = renumber 0 files ++ held last_idx x 1 hold.
Proof.
  intros Hbase. rewrite !List.filter_app, filter_frames_none by exact Hbase.
  rewrite !filter_frames_all by (apply renumber_frames || apply held_frames).
  reflexivity.
Qed.

(** The hold step of the stager, after the frames were written. *)
Lemma hold_step_eq (link_ok use_hardlink : bool) (base files : dir)
    (last_name : pystr) (data : list byte) (hold : nat) :
  no_frame_names base →
  last files = Some (last_name, File data) →
  (if 0 <? hold then
     match dir_lookup (frame_name (length files - 1))
             (base ++ renumber 0 files) with
     | Some _ =>
         hold_loop link_ok use_hardlink (length files - 1) 1 hold
           (base ++ renumber 0 files)
     | None => Ok (base ++ renumber 0 files)
     end
   else Ok (base ++ renumber 0 files))
  = Ok (base ++ renumber 0 files
          ++ held (length files - 1) (File data) 1 hold).
Proof.
  intros Hbase Hlast.
  assert (Hlen : 0 < length files).
  { destruct files; [discriminate|simpl; lia]. }
  assert (Hlk : dir_lookup (frame_name (length files - 1))
                  (base ++ renumber 0 files) = Some (File data)).
  { pose proof (frame_name_fresh base [] 0 (length files - 1) Hbase eq_refl
                  (Nat.le_0_l _)) as Hb.
    rewrite app_nil_r in Hb. rewrite dir_lookup_app, Hb.
    rewrite (renumber_lookup 0 (length files - 1)).
    rewrite last_lookup in Hlast.
    replace (length files - 1) with (pred (length files)) by lia.
    rewrite Hlast. reflexivity. }
  destruct (Nat.ltb_spec 0 hold) as [Hpos|Hzero].
  - rewrite Hlk. apply hold_loop_eq; [exact Hbase| |exact Hlk].
    rewrite renumber_names. f_equal. f_equal. lia.
  - replace hold with 0 by lia. unfold held. simpl.
    rewrite app_nil_r. reflexivity.
Qed.

Lemma stage_frames_clean (link_ok use_hardlink : bool) (files base : dir) :
  no_frame_names base →
  stage_frames link_ok use_hardlink 0 files base
  = if forallb (λ e, is_file e.2) files
    then Ok (base ++ renumber 0 files)
    else Raise IsADirectoryError.
Proof.
  intros Hbase.
  pose proof (stage_frames_eq link_ok use_hardlink files base Hbase 0 []
                eq_refl) as H.
  rewrite app_nil_r in H. exact H.
Qed.

Lemma last_is_file (files : dir) :
  is_nil files = false → forallb (λ e, is_file e.2) files = true →
  ∃ n data, last files = Some (n, File data).
Proof.
  intros Hne Hall. destruct (last files) as [[n x]|] eqn:E.
  - rewrite forallb_forall in Hall.
    assert (Hin : In (n, x) files).
    { apply list_elem_of_In. rewrite last_lookup in E.
      eapply list_elem_of_lookup_2, E. }
    specialize (Hall _ Hin). destruct x; [eauto|discriminate].
  - apply last_None in E. subst. discriminate.
Qed.

(** The stager on a folder whose staging directory can be made and holds
    no directory under a frame name: what it returns, step by step. *)
Lemma stage_from_latest_run_shape (link_ok : bool) (parent parent1 : dir)
    (fps hold_last_sec : Q) (hold_mode : pystr) (run_name : pystr)
    (run : node) :
  latest_run_folder parent = Some (run_name, run) →
  mkdir_exist_ok (U "staging") parent = Ok parent1 →
  no_frame_dirs (staging_entries parent) →
  stage_from_latest_run link_ok parent fps hold_last_sec hold_mode
  = if is_nil (source_files run)
    then Ok (put_staging (clean_staging (staging_entries parent)) parent1,
             NoFrames run_name)
    else if forallb (λ e, is_file e.2) (source_files run)
    then
      staging ← stage_manifest run
        (clean_staging (staging_entries parent)
           ++ renumber 0 (source_files run)
           ++ held (length (source_files run) - 1)
                (from_option snd (File []) (last (source_files run))) 1
                (Z.to_nat (hold_frames fps hold_last_sec)));
      Ok (put_staging staging parent1,
          Staged run_name (length (source_files run))
            (Z.to_nat (hold_frames fps hold_last_sec)))
    else Raise IsADirectoryError.
Proof.
  intros Hl Hmk Hnd. unfold stage_from_latest_run. rewrite Hl, Hmk.
  cbn [mbind res_bind].
  assert (Hst : staging_entries parent1 = staging_entries parent).
  { apply mkdir_exist_ok_spec in Hmk as (m & Hlk & _).
    unfold staging_entries. rewrite Hlk. reflexivity. }
  rewrite Hst.
  pose proof (clean_staging_no_frame_names _ Hnd) as Hbase.
  destruct (is_nil (source_files run)) eqn:Hnil; [reflexivity|].
  rewrite stage_frames_clean by exact Hbase.
  destruct (forallb _ (source_files run)) eqn:Hall; [|reflexivity].
  cbn [mbind res_bind].
  destruct (last_is_file _ Hnil Hall) as (ln & data & Hlast).
  rewrite (hold_step_eq _ _ _ _ ln data _ Hbase Hlast).
  cbn [mbind res_bind]. rewrite Hlast. reflexivity.
Qed.

Lemma stage_manifest_frames (run : node) (staging staging' : dir) :
  stage_manifest run staging = Ok staging' →
  List.filter (λ e, glob_frame e.1) staging'
  = List.filter (λ e, glob_frame e.1) staging.
Proof.
  unfold stage_manifest.
  destruct (dir_lookup (U "manifest.json") (node_entries run)) as [m|].
  - intros Hc. apply copy2_writes in Hc as [x ->].
    apply (filter_dir_write_other glob_frame). reflexivity.
  - intros [= <-]. reflexivity.
Qed.

Lemma staging_entries_put (staging parent : dir) :
  staging_entries (put_staging staging parent) = staging.
Proof.
  unfold staging_entries, put_staging. rewrite dir_lookup_write_eq.
  reflexivity.
Qed.



Example example_staged_lookup :
  dir_lookup (frame_name 0) (staging_entries example_staged)
  = Some (File ["a"%byte])
  ∧ dir_lookup (frame_name 1) (staging_entries example_staged)
    = Some (File ["b"%byte])
  ∧ dir_lookup (frame_name 7) (staging_entries example_staged)
    = Some (File ["b"%byte])
  ∧ dir_lookup (frame_name 8) (staging_entries example_staged) = None.
Proof. repeat split; reflexivity. Qed.

(* ------------------------------------------------------------------ *)
(** *** A manifest left over from an earlier batch *)

(** C2 fails on the code: after the new batch is staged with success, the
    staged frame is the new one but [current_manifest.json] still holds
    the bytes of the old batch's manifest; the new batch has none. *)
Lemma stale_manifest_survives :
  stage_from_latest_run true (after_old_batch ++ [new_batch]) (2 # 1) (0 # 1)
    (U "hardlink")
  = Ok (after_new_batch, Staged (U "2024-05-02") 1 0)
  ∧ dir_lookup (U "manifest.json") (node_entries new_batch.2) = None
  ∧ dir_lookup (frame_name 0) (staging_entries after_new_batch)
    = Some (File ["n"%byte])
  ∧ dir_lookup (U "current_manifest.json") (staging_entries after_new_batch)
    = Some (File ["1"%byte]).
Proof. repeat split; vm_compute; reflexivity. Qed.

(* ------------------------------------------------------------------ *)
(** *** Regular trees: where no step of a run can raise *)

Lemma Forall_dir_write (P : pystr * node → Prop) (name : pystr) (x : node)
    (d : dir) :
  Forall P d → P (name, x) → Forall P (dir_write name x d).
Proof.
  intros Hd Hx. induction Hd as [|[n y] r Hy Hr IH]; simpl.
  - constructor; [exact Hx|constructor].
  - destruct (str_eqb n name) eqn:E.
    + apply str_eqb_true in E. subst n. constructor; assumption.
    + constructor; assumption.
Qed.

Lemma dir_lookup_NoDup (name : pystr) (x : node) (d : dir) :
  NoDup d.*1 → (name, x) ∈ d → dir_lookup name d = Some x.
Proof.
  induction d as [|[n y] r IH]; intros Hnd Hin.
  - apply elem_of_nil in Hin. contradiction.
  - rewrite fmap_cons in Hnd. apply NoDup_cons in Hnd as [Hn Hnd].
    simpl. apply elem_of_cons in Hin as [Heq|Hin].
    + injection Heq as <- <-. rewrite str_eqb_refl. reflexivity.
    + destruct (str_eqb n name) eqn:E.
      * apply str_eqb_true in E. subst n. exfalso. apply Hn.
        apply list_elem_of_fmap. exists (name, x). split; [reflexivity|exact Hin].
      * apply IH; assumption.
Qed.

Lemma files_only_lookup (name : pystr) (d : dir) :
  files_only d →
  match dir_lookup name d with Some (Dir _ _) => False | _ => True end.
Proof.
  intros Hf. destruct (dir_lookup name d) as [[data|m es]|] eqn:E; try exact I.
  apply dir_lookup_elem in E. unfold files_only in Hf.
  rewrite Forall_forall in Hf. specialize (Hf _ E). discriminate Hf.
Qed.

Lemma flat_lookup (name : pystr) (d : dir) (x : node) :
  flat d → dir_lookup name d = Some x → files_only (node_entries x).
Proof.
  intros Hf E. apply dir_lookup_elem in E. unfold flat in Hf.
  rewrite Forall_forall in Hf. apply (Hf _ E).
Qed.

(** A copy of a regular file into a directory of regular files. *)
Lemma copy2_files_only (src_name name : pystr) (data : list byte) (d : dir) :
  files_only d →
  copy2 src_name (Some (File data)) name d = Ok (dir_write name (File data) d)
  ∧ files_only (dir_write name (File data) d).
Proof.
  intros Hf. split.
  - unfold copy2. pose proof (files_only_lookup name d Hf) as Hl.
    destruct (dir_lookup name d) as [[?|? ?]|]; [reflexivity|contradiction|
                                                  reflexivity].
  - apply Forall_dir_write; [exact Hf|reflexivity].
Qed.


Lemma files_only_filter (f : pystr * node → bool) (d : dir) :
  files_only d → files_only (List.filter f d).
Proof.
  unfold files_only. rewrite !Forall_forall. intros Hf e Hin.
  apply list_elem_of_In, filter_In in Hin as [Hin _].
  apply Hf, list_elem_of_In, Hin.
Qed.

Lemma files_only_sorted (d : dir) : files_only d → files_only (sorted d).
Proof.
  unfold files_only, sorted. intros Hf.
  rewrite merge_sort_Permutation. exact Hf.
Qed.

Lemma files_only_forallb (d : dir) :
  files_only d → forallb (λ e, is_file e.2) d = true.
Proof.
  unfold files_only. rewrite Forall_forall, forallb_forall.
  intros Hf e Hin. apply Hf, list_elem_of_In, Hin.
Qed.

Lemma files_only_renumber (i : nat) (files : dir) :
  files_only files → files_only (renumber i files).
Proof.
  intros Hf. revert i. induction Hf as [|[n x] r Hx _ IH]; intros i;
    constructor; [exact Hx|apply IH].
Qed.

Lemma files_only_held (last_idx : nat) (data : list byte) (k todo : nat) :
  files_only (held last_idx (File data) k todo).
Proof. unfold files_only, held. apply Forall_fmap, Forall_forall. reflexivity. Qed.

Lemma files_only_no_frame_dirs (d : dir) : files_only d → no_frame_dirs d.
Proof.
  intros Hf. eapply Forall_impl; [exact Hf|]. intros e He _. exact He.
Qed.

Lemma latest_run_folder_in (parent : dir) (e : pystr * node) :
  latest_run_folder parent = Some e → e ∈ parent ∧ is_dir e.2 = true.
Proof.
  unfold latest_run_folder, py_max_by. intros Hl.
  assert (Hin : e ∈ all_runs parent).
  { destruct (all_runs parent) as [|x r]; [discriminate|].
    injection Hl as <-.
    destruct (max_from_first (λ e : pystr * node, node_mtime e.2) r x)
      as (pre & post & -> & _).
    rewrite elem_of_app, elem_of_cons. auto. }
  unfold all_runs in Hin.
  apply list_elem_of_In, filter_In in Hin as [Hin Hd].
  apply andb_true_iff in Hd as [Hd _].
  split; [apply list_elem_of_In, Hin|exact Hd].
Qed.

Lemma staging_files_only (parent : dir) :
  flat parent → files_only (staging_entries parent).
Proof.
  intros Hf. unfold staging_entries.
  destruct (dir_lookup (U "staging") parent) as [x|] eqn:E; simpl.
  - eapply flat_lookup; eassumption.
  - constructor.
Qed.

Lemma mkdir_staging_ok (parent : dir) :
  view_folder_ok parent →
  ∃ parent1, mkdir_exist_ok (U "staging") parent = Ok parent1 ∧ flat parent1.
Proof.
  intros [Hf Hm]. unfold staging_makeable in Hm. unfold mkdir_exist_ok.
  destruct (dir_lookup (U "staging") parent) as [[data|m es]|];
    [contradiction| |]; eexists; (split; [reflexivity|]); [exact Hf|].
  apply Forall_app. split; [exact Hf|]. repeat constructor.
Qed.

Lemma put_staging_ok (staging parent : dir) :
  flat parent → files_only staging →
  view_folder_ok (put_staging staging parent).
Proof.
  intros Hf Hs. unfold put_staging. split.
  - apply Forall_dir_write; [exact Hf|exact Hs].
  - unfold staging_makeable. rewrite dir_lookup_write_eq. exact I.
Qed.

Lemma stage_manifest_total (run : node) (staging : dir) :
  files_only (node_entries run) → files_only staging →
  ∃ staging', stage_manifest run staging = Ok staging' ∧ files_only staging'.
Proof.
  intros Hrun Hst. unfold stage_manifest.
  pose proof (files_only_lookup (U "manifest.json") _ Hrun) as Hl.
  destruct (dir_lookup (U "manifest.json") (node_entries run))
    as [[data|m es]|]; [|contradiction|].
  - destruct (copy2_files_only (U "manifest.json") (U "current_manifest.json")
                data staging Hst) as [-> Hf].
    eexists. split; [reflexivity|exact Hf].
  - eexists. split; [reflexivity|exact Hst].
Qed.

(** On a regular view folder the stager returns, and leaves the folder
    regular. *)
Lemma stage_from_latest_run_total (link_ok : bool) (parent : dir)
    (fps hold_last_sec : Q) (hold_mode : pystr) :
  view_folder_ok parent →
  ∃ parent' r,
    stage_from_latest_run link_ok parent fps hold_last_sec hold_mode
    = Ok (parent', r)
    ∧ view_folder_ok parent'.
Proof.
  intros Hok. pose proof Hok as [Hflat Hmake].
  destruct (latest_run_folder parent) as [[rn run]|] eqn:Hl.
  2: { exists parent, NoRuns. unfold stage_from_latest_run. rewrite Hl.
       split; [reflexivity|exact Hok]. }
  destruct (mkdir_staging_ok parent Hok) as (parent1 & Hmk & Hflat1).
  pose proof (staging_files_only parent Hflat) as Hst.
  rewrite (stage_from_latest_run_shape _ _ _ _ _ _ _ _ Hl Hmk
             (files_only_no_frame_dirs _ Hst)).
  assert (Hbase : files_only (clean_staging (staging_entries parent)))
    by (apply files_only_filter, Hst).
  destruct (is_nil (source_files run)) eqn:Hnil.
  { eexists _, _. split; [reflexivity|].
    apply put_staging_ok; assumption. }
  assert (Hrun : files_only (node_entries run)).
  { apply latest_run_folder_in in Hl as [Hin _].
    unfold flat in Hflat. rewrite Forall_forall in Hflat.
    apply (Hflat _ Hin). }
  assert (Hfiles : files_only (source_files run)).
  { apply files_only_sorted, files_only_filter, Hrun. }
  rewrite (files_only_forallb _ Hfiles).
  destruct (last_is_file _ Hnil (files_only_forallb _ Hfiles))
    as (ln & data & Hlast).
  rewrite Hlast. cbn [from_option snd].
  destruct (stage_manifest_total run
              (clean_staging (staging_entries parent)
                 ++ renumber 0 (source_files run)
                 ++ held (length (source_files run) - 1) (File data) 1
                      (Z.to_nat (hold_frames fps hold_last_sec))) Hrun)
    as (staging' & -> & Hst').
  { apply Forall_app. split; [exact Hbase|].
    apply Forall_app. split;
      [apply files_only_renumber, Hfiles|apply files_only_held]. }
  eexists _, _. split; [reflexivity|].
  apply put_staging_ok; assumption.
Qed.

(* ------------------------------------------------------------------ *)
(** *** Publication and the deployment of one view *)



Section DeployFacts.
Context {UT : UnicodeTable}.

Lemma path_join_child (key : pystr) : 95%N ∈ key → path_join key = Child key.
Proof.
  intros Hin. unfold path_join.
  destruct (str_eqb key []) eqn:E1.
  { apply str_eqb_true in E1. subst. apply elem_of_nil in Hin. contradiction. }
  destruct (str_eqb key (U ".")) eqn:E2; [|reflexivity].
  apply str_eqb_true in E2. subst.
  change (U ".") with [46%N] in Hin.
  apply elem_of_cons in Hin as [Hin|Hin]; [discriminate Hin|].
  apply elem_of_nil in Hin. contradiction.
Qed.

Lemma scan_children_in (children : dir) (key : pystr) (l : loc) :
  scan_children children key = Some l →
  ∃ n x, l = Child n ∧ (n, x) ∈ children ∧ is_dir x = true.
Proof.
  induction children as [|[n x] r IH]; simpl; [discriminate|].
  destruct (is_dir x && str_eqb (canonicalize n) key) eqn:E.
  - intros [= <-]. apply andb_true_iff in E as [Hd _].
    exists n, x. split; [reflexivity|]. split; [left|exact Hd].
  - intros Hs. destruct (IH Hs) as (n' & x' & -> & Hin & Hd).
    exists n', x'. split; [reflexivity|]. split; [right; exact Hin|exact Hd].
Qed.

Lemma find_parent_dir_in (output_root : dir) (key : pystr) (l : loc) :
  95%N ∈ key →
  find_parent_dir_for_key output_root key = Some l →
  ∃ n x, l = Child n ∧ (n, x) ∈ output_root ∧ is_dir x = true.
Proof.
  intros Hkey. unfold find_parent_dir_for_key.
  rewrite (path_join_child key Hkey). simpl.
  destruct (dir_lookup key output_root) as [x|] eqn:E; simpl.
  - destruct (is_dir x) eqn:Hd.
    + intros [= <-]. exists key, x. split; [reflexivity|].
      split; [apply dir_lookup_elem, E|exact Hd].
    + apply scan_children_in.
  - apply scan_children_in.
Qed.

End DeployFacts.

(* ------------------------------------------------------------------ *)
(** *** The run *)

Section RunFacts.
Context {UT : UnicodeTable}.


End RunFacts.

Lemma example_world_ok : world_ok example_world.
Proof.
  split; [|split].
  - simpl. apply NoDup_singleton.
  - repeat constructor.
  - apply map_Forall_insert_2; [repeat constructor|apply map_Forall_empty].
Qed.


Example example_run_outcomes :
  match main (UT := latin1_table) true no_env None (Some example_views)
          (Some example_projects) example_world with
  | Finished _ reports =>
      reports.*2
      = [Deployed (Staged (U "2024-05-01") 2 0) 2 NoManifest; Skipped;
         SourceNotFound]
  | _ => False
  end.
Proof. vm_compute. reflexivity. Qed.


(* ------------------------------------------------------------------ *)
(** *** Further properties of the stager and of a deployment *)

(** Link fallback: whether the environment allows hard links, and which
    hold mode is asked for, makes no difference to what staging returns
    and leaves (the staging directory holding no subdirectory under a
    frame name). *)
Theorem staging_ignores_link_mode (parent : dir) (fps hold_last_sec : Q)
    (link_ok link_ok' : bool) (hold_mode hold_mode' : pystr) :
  no_frame_dirs (staging_entries parent) →
  stage_from_latest_run link_ok parent fps hold_last_sec hold_mode
  = stage_from_latest_run link_ok' parent fps hold_last_sec hold_mode'.
Proof.
  intros Hnd.
  destruct (latest_run_folder parent) as [[rn run]|] eqn:Hl.
  2: { unfold stage_from_latest_run. rewrite Hl. reflexivity. }
  destruct (mkdir_exist_ok (U "staging") parent) as [parent1|e] eqn:Hmk.
  2: { unfold stage_from_latest_run. rewrite Hl, Hmk. reflexivity. }
  rewrite !(stage_from_latest_run_shape _ _ _ _ _ _ _ _ Hl Hmk Hnd).
  reflexivity.
Qed.

Lemma staging_ignores_link_mode_witness :
  stage_from_latest_run true example_parent (2 # 1) (3 # 1) (U "hardlink")
  = stage_from_latest_run false example_parent (2 # 1) (3 # 1) (U "copy").
Proof.
  apply (staging_ignores_link_mode example_parent (2 # 1) (3 # 1) true false
           (U "hardlink") (U "copy")).
  apply Forall_nil_2.
Defined.

Section DeployFurther.
Context {UT : UnicodeTable}.

(** Stage-only short-circuit: with [stage_only] set, a deployment that
    returns leaves every project directory as it was. *)
Theorem stage_only_leaves_projects (link_ok : bool) (v : view)
    (project_path_str : pystr) (o : opts) (w w' : world) (out : outcome) :
  stage_only o = Some true →
  deploy_latest_frames link_ok v project_path_str o w = Ok (w', out) →
  project_dirs w' = project_dirs w.
Proof.
  intros Hso. unfold deploy_latest_frames.
  destruct (find_parent_dir_for_key _ _) as [l|]; [|intros [= <- _]; reflexivity].
  destruct (read_loc _ _) as [parent|e]; [|discriminate].
  cbn [mbind res_bind].
  destruct (stage_from_latest_run _ _ _ _ _) as [[parent' r]|e]; [|discriminate].
  cbn [mbind res_bind]. rewrite Hso. cbn [default from_option].
  destruct (negb (staged_ok r)); intros [= <- _]; reflexivity.
Qed.
End DeployFurther.

Lemma stage_only_leaves_projects_witness :
  project_dirs example_stage_only_result.1 = project_dirs example_world
  ∧ example_stage_only_result.2 = StageOnlyDone (Staged (U "2024-05-01") 2 0).
Proof.
  split; [|reflexivity].
  apply (stage_only_leaves_projects (UT := latin1_table) true
           (view_of "GOES" "full" "IR") (U "proj/goes") stage_only_opts
           example_world example_stage_only_result.1
           example_stage_only_result.2 eq_refl).
  vm_compute. reflexivity.
Defined.

(* ------------------------------------------------------------------ *)
(** *** Staging twice *)

Lemma filter_dir_write_rejected (f : pystr * node → bool) (name : pystr)
    (x : node) (d : dir) :
  (∀ y, f (name, y) = false) →
  List.filter f (dir_write name x d) = List.filter f d.
Proof.
  intros Hrej. induction d as [|[n y] r IH]; simpl.
  - rewrite Hrej. reflexivity.
  - destruct (str_eqb n name) eqn:E; simpl.
    + apply str_eqb_true in E. subst n. rewrite !Hrej. reflexivity.
    + rewrite IH. reflexivity.
Qed.

Lemma dir_lookup_filter_kept (f : pystr * node → bool) (name : pystr)
    (d : dir) :
  (∀ y, f (name, y) = true) →
  dir_lookup name (List.filter f d) = dir_lookup name d.
Proof.
  intros Hkeep. induction d as [|[n y] r IH]; [reflexivity|].
  simpl. destruct (str_eqb n name) eqn:E.
  - apply str_eqb_true in E. subst n. rewrite Hkeep. simpl.
    rewrite str_eqb_refl. reflexivity.
  - destruct (f (n, y)); [simpl; rewrite E|]; exact IH.
Qed.

Lemma dir_lookup_frames_other (name : pystr) (frames : dir) :
  Forall (λ e, glob_frame e.1 = true) frames → glob_frame name = false →
  dir_lookup name frames = None.
Proof.
  intros Hf Hn. apply dir_lookup_None. intros Hin.
  apply list_elem_of_fmap in Hin as ([n x] & -> & Hin).
  rewrite Forall_forall in Hf. specialize (Hf _ Hin). simpl in *. congruence.
Qed.

Lemma dir_lookup_no_frame_names (name : pystr) (d : dir) :
  no_frame_names d → glob_frame name = true → dir_lookup name d = None.
Proof.
  intros Hd Hn. apply dir_lookup_None. intros Hin.
  apply list_elem_of_fmap in Hin as ([n x] & -> & Hin).
  unfold no_frame_names in Hd. rewrite Forall_forall in Hd.
  specialize (Hd _ Hin). simpl in *. congruence.
Qed.

(** The entries of a cleaned staging directory followed by fresh frames,
    name by name. *)
Lemma dir_lookup_clean_app (name : pystr) (d frames : dir) :
  no_frame_dirs d → Forall (λ e, glob_frame e.1 = true) frames →
  dir_lookup name (clean_staging d ++ frames)
  = if glob_frame name then dir_lookup name frames else dir_lookup name d.
Proof.
  intros Hd Hf. rewrite dir_lookup_app.
  destruct (glob_frame name) eqn:Hn.
  - rewrite (dir_lookup_no_frame_names name _
               (clean_staging_no_frame_names _ Hd) Hn). reflexivity.
  - unfold clean_staging. rewrite dir_lookup_filter_kept.
    + rewrite (dir_lookup_frames_other name frames Hf Hn).
      destruct (dir_lookup name d); reflexivity.
    + intros y. simpl. rewrite Hn. reflexivity.
Qed.

Lemma clean_staging_clean (d : dir) : no_frame_names d → clean_staging d = d.
Proof.
  unfold clean_staging. induction 1 as [|e r He _ IH]; [reflexivity|].
  simpl. rewrite He, IH. reflexivity.
Qed.

Lemma stage_manifest_lookup (run : node) (staging staging' : dir)
    (name : pystr) :
  stage_manifest run staging = Ok staging' →
  dir_lookup name staging'
  = if str_eqb name (U "current_manifest.json")
    then manifest_entry run (dir_lookup (U "current_manifest.json") staging)
    else dir_lookup name staging.
Proof.
  unfold stage_manifest, manifest_entry, copy2.
  destruct (dir_lookup (U "manifest.json") (node_entries run))
    as [[data|m es]|]; [| discriminate |].
  - destruct (str_eqb name (U "current_manifest.json")) eqn:E.
    + apply str_eqb_true in E. subst name.
      destruct (dir_lookup (U "current_manifest.json") staging)
        as [[data'|m es]|]; [| |]; try (intros [= <-];
                                        apply dir_lookup_write_eq).
      destruct (dir_lookup (U "manifest.json") es) as [[?|? ?]|];
        try discriminate; intros [= <-]; apply dir_lookup_write_eq.
    + apply str_eqb_false in E.
      destruct (dir_lookup (U "current_manifest.json") staging)
        as [[data'|m es]|]; [| |];
        try (intros [= <-]; apply dir_lookup_write_ne; congruence).
      destruct (dir_lookup (U "manifest.json") es) as [[?|? ?]|];
        try discriminate; intros [= <-]; apply dir_lookup_write_ne;
        congruence.
  - intros [= <-]. destruct (str_eqb name _) eqn:E; [|reflexivity].
    apply str_eqb_true in E. subst name. reflexivity.
Qed.

Lemma dir_write_twice (name : pystr) (x : node) (d : dir) :
  dir_write name x (dir_write name x d) = dir_write name x d.
Proof.
  induction d as [|[n y] r IH]; cbn [dir_write].
  - rewrite str_eqb_refl. reflexivity.
  - destruct (str_eqb n name) eqn:E; cbn [dir_write]; rewrite E;
      [reflexivity|]. rewrite IH. reflexivity.
Qed.

Lemma manifest_entry_idem (run : node) (old : option node) :
  manifest_entry run (manifest_entry run old) = manifest_entry run old.
Proof.
  unfold manifest_entry.
  destruct (dir_lookup (U "manifest.json") (node_entries run))
    as [[data|m es]|]; try reflexivity.
  destruct old as [[data'|m es]|]; try reflexivity.
  rewrite dir_write_twice. reflexivity.
Qed.

(** The manifest step succeeds again on any directory that has, under
    [current_manifest.json], what a successful manifest step left. *)
Lemma stage_manifest_again (run : node) (staging staging' other : dir) :
  stage_manifest run staging = Ok staging' →
  dir_lookup (U "current_manifest.json") other
  = dir_lookup (U "current_manifest.json") staging' →
  ∃ other', stage_manifest run other = Ok other'.
Proof.
  intros Hfirst Hsame.
  rewrite (stage_manifest_lookup _ _ _ _ Hfirst), str_eqb_refl in Hsame.
  revert Hfirst Hsame. unfold stage_manifest, manifest_entry, copy2.
  destruct (dir_lookup (U "manifest.json") (node_entries run))
    as [[data|m es]|]; [|discriminate|eauto].
  intros _ Hsame. rewrite Hsame.
  destruct (dir_lookup (U "current_manifest.json") staging)
    as [[data'|m es]|]; eauto.
  rewrite dir_lookup_write_eq. eauto.
Qed.

Lemma all_runs_put_staging (staging parent parent1 : dir) :
  mkdir_exist_ok (U "staging") parent = Ok parent1 →
  all_runs (put_staging staging parent1) = all_runs parent.
Proof.
  intros Hmk. unfold all_runs, put_staging.
  rewrite filter_dir_write_rejected
    by (intros y; cbn [fst snd]; rewrite str_eqb_refl; apply andb_false_r).
  apply mkdir_exist_ok_spec in Hmk as (m & _ & [->|[_ ->]]); [reflexivity|].
  rewrite List.filter_app. simpl. rewrite app_nil_r. reflexivity.
Qed.

Lemma mkdir_put_staging (staging parent : dir) :
  mkdir_exist_ok (U "staging") (put_staging staging parent)
  = Ok (put_staging staging parent).
Proof.
  unfold mkdir_exist_ok, put_staging. rewrite dir_lookup_write_eq.
  reflexivity.
Qed.

(** Staging idempotence: when a run of the stager returns, running it
    again on what it left, with the same options, returns the same report
    and leaves the same entry under every name of the staging directory
    (the staging directory holding no subdirectory under a frame name to
    begin with). *)
Theorem restaging_is_idempotent (link_ok : bool) (parent parent' : dir)
    (fps hold_last_sec : Q) (hold_mode : pystr) (r : stage_report) :
  no_frame_dirs (staging_entries parent) →
  stage_from_latest_run link_ok parent fps hold_last_sec hold_mode
  = Ok (parent', r) →
  ∃ parent'',
    stage_from_latest_run link_ok parent' fps hold_last_sec hold_mode
    = Ok (parent'', r)
    ∧ ∀ name,
        dir_lookup name (staging_entries parent'')
        = dir_lookup name (staging_entries parent').
Proof.
  intros Hnd Hrun.
  destruct (latest_run_folder parent) as [[rn run]|] eqn:Hl.
  2: { unfold stage_from_latest_run in Hrun. rewrite Hl in Hrun.
       injection Hrun as <- <-. exists parent.
       unfold stage_from_latest_run. rewrite Hl. split; reflexivity. }
  destruct (mkdir_exist_ok (U "staging") parent) as [parent1|e] eqn:Hmk.
  2: { unfold stage_from_latest_run in Hrun. rewrite Hl, Hmk in Hrun.
       discriminate Hrun. }
  rewrite (stage_from_latest_run_shape _ _ _ _ _ _ _ _ Hl Hmk Hnd) in Hrun.
  pose proof (clean_staging_no_frame_names _ Hnd) as Hbase.
  assert (Hagain : ∀ staging,
             latest_run_folder (put_staging staging parent1)
             = Some (rn, run)).
  { intros staging. unfold latest_run_folder.
    rewrite (all_runs_put_staging _ _ _ Hmk). exact Hl. }
  destruct (is_nil (source_files run)) eqn:Hnil.
  { injection Hrun as <- <-.
    rewrite (stage_from_latest_run_shape _ _ _ _ _ _ _ _ (Hagain _)
               (mkdir_put_staging _ _)), Hnil.
    - eexists. split; [reflexivity|]. intros name.
      rewrite !staging_entries_put, clean_staging_clean by exact Hbase.
      reflexivity.
    - rewrite staging_entries_put. eapply Forall_impl; [exact Hbase|].
      intros e He Ht. simpl in *. congruence. }
  destruct (forallb _ (source_files run)) eqn:Hall; [|discriminate Hrun].
  destruct (last_is_file _ Hnil Hall) as (ln & data & Hlast).
  rewrite Hlast in Hrun. cbn [from_option snd] in Hrun.
  set (frames := renumber 0 (source_files run)
                 ++ held (length (source_files run) - 1) (File data) 1
                      (Z.to_nat (hold_frames fps hold_last_sec))) in *.
  assert (Hframes : Forall (λ e, glob_frame e.1 = true) frames).
  { apply Forall_app. split; [apply renumber_frames|apply held_frames]. }
  assert (Hfiles : files_only frames).
  { apply Forall_app. split; [|apply files_only_held].
    apply files_only_renumber. unfold files_only.
    rewrite Forall_forall. rewrite forallb_forall in Hall.
    intros e He. apply Hall, list_elem_of_In, He. }
  destruct (stage_manifest run (clean_staging (staging_entries parent) ++ frames))
    as [staging'|e] eqn:Hman; [|discriminate Hrun].
  cbn [mbind res_bind] in Hrun. injection Hrun as <- <-.
  assert (Hnd' : no_frame_dirs staging').
  { assert (Hpre : no_frame_dirs
                     (clean_staging (staging_entries parent) ++ frames)).
    { apply Forall_app. split.
      - eapply Forall_impl; [exact Hbase|].
        intros e He Ht. simpl in *. congruence.
      - apply files_only_no_frame_dirs, Hfiles. }
    revert Hman. unfold stage_manifest.
    destruct (dir_lookup (U "manifest.json") (node_entries run)) as [m|].
    - intros Hc. apply copy2_writes in Hc as [x ->].
      apply Forall_dir_write; [exact Hpre|]. intros Ht. discriminate Ht.
    - intros [= <-]. exact Hpre. }
  assert (Hsame : ∀ name,
             dir_lookup name (clean_staging staging' ++ frames)
             = dir_lookup name staging').
  { intros name. rewrite (dir_lookup_clean_app _ _ _ Hnd' Hframes).
    destruct (glob_frame name) eqn:Hn; [|reflexivity].
    rewrite (stage_manifest_lookup _ _ _ name Hman).
    destruct (str_eqb name (U "current_manifest.json")) eqn:E.
    { apply str_eqb_true in E. subst name. discriminate Hn. }
    rewrite (dir_lookup_clean_app _ _ _ Hnd Hframes), Hn. reflexivity. }
  destruct (stage_manifest_again run _ _ (clean_staging staging' ++ frames)
              Hman (Hsame _)) as [staging'' Hman'].
  rewrite (stage_from_latest_run_shape _ _ _ _ _ _ _ _ (Hagain _)
             (mkdir_put_staging _ _))
    by (rewrite staging_entries_put; exact Hnd').
  rewrite Hnil, Hall, Hlast. cbn [from_option snd].
  rewrite staging_entries_put. fold frames. rewrite Hman'.
  cbn [mbind res_bind]. eexists. split; [reflexivity|].
  intros name. rewrite !staging_entries_put.
  rewrite (stage_manifest_lookup _ _ _ name Hman'), Hsame.
  destruct (str_eqb name (U "current_manifest.json")) eqn:E; [|apply Hsame].
  apply str_eqb_true in E. subst name.
  rewrite (stage_manifest_lookup _ _ _ _ Hman), str_eqb_refl.
  apply manifest_entry_idem.
Qed.

Lemma restaging_is_idempotent_witness :
  ∃ parent'',
    stage_from_latest_run false example_staged (2 # 1) (3 # 1) (U "hardlink")
    = Ok (parent'', Staged (U "2024-05-01") 2 6)
    ∧ ∀ name,
        dir_lookup name (staging_entries parent'')
        = dir_lookup name (staging_entries example_staged).
Proof.
  exact (restaging_is_idempotent false example_parent example_staged
           (2 # 1) (3 # 1) (U "hardlink") (Staged (U "2024-05-01") 2 6)
           (Forall_nil_2 _) eq_refl).
Defined.

(* ------------------------------------------------------------------ *)
(** *** What the stager leaves alone *)

Lemma stage_from_latest_run_touches (link_ok : bool) (parent parent' : dir)
    (fps hold_last_sec : Q) (hold_mode : pystr) (r : stage_report) :
  stage_from_latest_run link_ok parent fps hold_last_sec hold_mode
  = Ok (parent', r) →
  parent' = parent
  ∨ ∃ parent1 staging,
      mkdir_exist_ok (U "staging") parent = Ok parent1
      ∧ parent' = put_staging staging parent1.
Proof.
  unfold stage_from_latest_run.
  destruct (latest_run_folder parent) as [[rn run]|];
    [|intros [= <- _]; left; reflexivity].
  destruct (mkdir_exist_ok (U "staging") parent) as [parent1|e];
    [|discriminate].
  cbn [mbind res_bind].
  destruct (is_nil (source_files run)).
  { intros [= <- _]. right. eauto. }
  destruct (stage_frames _ _ _ _ _) as [st1|e]; [|discriminate].
  cbn [mbind res_bind].
  match goal with
  | |- ?m ≫= _ = _ → _ => destruct m as [st2|e]; [|discriminate]
  end.
  cbn [mbind res_bind].
  destruct (stage_manifest run st2) as [st3|e]; [|discriminate].
  cbn [mbind res_bind]. intros [= <- _]. right. eauto.
Qed.

Lemma dir_lookup_after_mkdir (name made : pystr) (d d' : dir) :
  mkdir_exist_ok made d = Ok d' → name ≠ made →
  dir_lookup name d' = dir_lookup name d.
Proof.
  intros Hmk Hne. apply mkdir_exist_ok_spec in Hmk as (m & _ & [->|[_ ->]]);
    [reflexivity|].
  rewrite dir_lookup_app. destruct (dir_lookup name d); [reflexivity|].
  simpl. assert (E : str_eqb made name = false) by (apply str_eqb_false; congruence).
  rewrite E. reflexivity.
Qed.

(** The stager never touches a batch: whenever it returns, the batch
    folders of the view folder (names, modification times, contents, in
    walk order) are the ones it found, and so is every entry of the view
    folder other than [staging]. *)
Theorem stager_keeps_batches (link_ok : bool) (parent parent' : dir)
    (fps hold_last_sec : Q) (hold_mode : pystr) (r : stage_report) :
  stage_from_latest_run link_ok parent fps hold_last_sec hold_mode
  = Ok (parent', r) →
  all_runs parent' = all_runs parent
  ∧ ∀ name, name ≠ U "staging" →
            dir_lookup name parent' = dir_lookup name parent.
Proof.
  intros Hrun.
  apply stage_from_latest_run_touches in Hrun
    as [->|(parent1 & staging & Hmk & ->)]; [split; reflexivity|].
  split; [apply (all_runs_put_staging _ _ _ Hmk)|].
  intros name Hne. unfold put_staging.
  rewrite dir_lookup_write_ne by congruence.
  apply (dir_lookup_after_mkdir _ _ _ _ Hmk Hne).
Qed.

Lemma stager_keeps_batches_witness :
  all_runs example_staged = all_runs example_parent.
Proof.
  apply (stager_keeps_batches false example_parent example_staged (2 # 1)
           (3 # 1) (U "hardlink") (Staged (U "2024-05-01") 2 6) eq_refl).
Defined.

(* ------------------------------------------------------------------ *)
(** *** The locator and the project map on view keys *)

Section KeyFacts.
Context {UT : UnicodeTable}.

Lemma build_view_key_canonical (v : view) :
  canonicalize (build_view_key v) = build_view_key v.
Proof.
  unfold build_view_key. apply canonicalize_fixes_settled, canonicalize_settled.
Qed.

Lemma scan_children_sound (children : dir) (key : pystr) (l : loc) :
  scan_children children key = Some l →
  ∃ n x, l = Child n ∧ (n, x) ∈ children ∧ is_dir x = true
         ∧ canonicalize n = key.
Proof.
  induction children as [|[n x] r IH]; simpl; [discriminate|].
  destruct (is_dir x && str_eqb (canonicalize n) key) eqn:E.
  - intros [= <-]. apply andb_true_iff in E as [Hd Hk].
    apply str_eqb_true in Hk.
    exists n, x. split; [reflexivity|]. split; [left|]. split; assumption.
  - intros Hs. destruct (IH Hs) as (n' & x' & -> & Hin & Hd & Hk).
    exists n', x'. split; [reflexivity|]. split; [right; exact Hin|].
    split; assumption.
Qed.

Lemma scan_children_none (children : dir) (key : pystr) :
  scan_children children key = None
  ↔ ∀ n x, (n, x) ∈ children → is_dir x = true → canonicalize n ≠ key.
Proof.
  induction children as [|[n x] r IH]; simpl.
  - split; [|reflexivity]. intros _ n x Hin. apply elem_of_nil in Hin.
    contradiction.
  - destruct (is_dir x && str_eqb (canonicalize n) key) eqn:E.
    + apply andb_true_iff in E as [Hd Hk]. apply str_eqb_true in Hk.
      split; [discriminate|]. intros Hall. exfalso.
      apply (Hall n x); [left|exact Hd|exact Hk].
    + rewrite IH. apply andb_false_iff in E. split.
      * intros Hall n' x' Hin Hd.
        apply elem_of_cons in Hin as [[= -> ->]|Hin]; [|eauto].
        destruct E as [E|E]; [congruence|].
        apply str_eqb_false in E. exact E.
      * intros Hall n' x' Hin. apply Hall. right. exact Hin.
Qed.

(** The locator on the key of a view: what it returns is always a child
    directory of the output root whose canonicalized name is that key;
    it is not-found exactly when no child directory canonicalizes to the
    key; and so two views with different keys are never given the same
    folder. *)
Theorem locator_exact_on_view_keys (output_root : dir) (v : view) :
  (∀ l, find_parent_dir_for_key output_root (build_view_key v) = Some l →
        ∃ n x, l = Child n ∧ (n, x) ∈ output_root ∧ is_dir x = true
               ∧ canonicalize n = build_view_key v)
  ∧ (find_parent_dir_for_key output_root (build_view_key v) = None
     ↔ ∀ n x, (n, x) ∈ output_root → is_dir x = true →
              canonicalize n ≠ build_view_key v)
  ∧ (∀ v' l,
       find_parent_dir_for_key output_root (build_view_key v) = Some l →
       find_parent_dir_for_key output_root (build_view_key v') = Some l →
       build_view_key v = build_view_key v').
Proof.
  assert (Hsound : ∀ u l,
             find_parent_dir_for_key output_root (build_view_key u) = Some l →
             ∃ n x, l = Child n ∧ (n, x) ∈ output_root ∧ is_dir x = true
                    ∧ canonicalize n = build_view_key u).
  { intros u l. unfold find_parent_dir_for_key.
    rewrite (path_join_child _ (build_view_key_has_underscore u)). simpl.
    destruct (dir_lookup (build_view_key u) output_root) as [x|] eqn:E;
      simpl; [|apply scan_children_sound].
    destruct (is_dir x) eqn:Hd; [|apply scan_children_sound].
    intros [= <-]. exists (build_view_key u), x. split; [reflexivity|].
    split; [apply dir_lookup_elem, E|]. split; [exact Hd|].
    apply build_view_key_canonical. }
  split; [apply Hsound|]. split.
  - unfold find_parent_dir_for_key.
    rewrite (path_join_child _ (build_view_key_has_underscore v)). simpl.
    destruct (dir_lookup (build_view_key v) output_root) as [x|] eqn:E; simpl.
    + destruct (is_dir x) eqn:Hd; [|apply scan_children_none].
      split; [discriminate|]. intros Hall. exfalso.
      apply (Hall _ x (dir_lookup_elem _ _ _ E) Hd).
      apply build_view_key_canonical.
    + apply scan_children_none.
  - intros v' l H1 H2.
    destruct (Hsound v l H1) as (n & x & -> & _ & _ & <-).
    destruct (Hsound v' _ H2) as (n' & x' & [= <-] & _ & _ & <-).
    reflexivity.
Qed.

Lemma build_projects_lookup (projs : list project) (k : pystr) :
  build_projects projs !! k
  = project_path <$> last (List.filter (λ p, str_eqb (project_key p) k) projs).
Proof.
  rewrite build_projects_foldl.
  induction projs as [|p l IH] using rev_ind; [reflexivity|].
  rewrite foldl_app, List.filter_app. simpl. unfold add_project at 1.
  destruct (str_eqb (project_key p) k) eqn:E.
  - apply str_eqb_true in E. rewrite E, lookup_insert_eq, last_snoc.
    reflexivity.
  - apply str_eqb_false in E. rewrite lookup_insert_ne by exact E.
    rewrite app_nil_r. exact IH.
Qed.

(** Project matching: a view is given the project path of the last
    project record whose canonicalized name is the view's key, provided
    that path is not empty; it is skipped when there is no such record or
    the path is empty.  The second lookup of [main], under the
    canonicalized key, never adds a match. *)
Theorem project_matching (projs : list project) (v : view) :
  lookup_project (build_projects projs) (build_view_key v)
  = match last (List.filter
                  (λ p, str_eqb (project_key p) (build_view_key v)) projs) with
    | Some p => if truthy (project_path p) then Some (project_path p) else None
    | None => None
    end.
Proof.
  unfold lookup_project.
  rewrite build_view_key_canonical, build_projects_lookup.
  destruct (last _) as [p|]; simpl; [|reflexivity].
  destruct (truthy (project_path p)) eqn:E; simpl; rewrite ?E; reflexivity.
Qed.
End KeyFacts.

(* ------------------------------------------------------------------ *)
(** *** The hold override, end to end *)


Section HoldRoundTrip.
Context {UT : UnicodeTable}.

End HoldRoundTrip.


(* ------------------------------------------------------------------ *)
(** *** Defaults replaced by the configuration file *)

Section DefaultsFacts.
Context {UT : UnicodeTable}.

Lemma default_shadow_same {A} (x : A) (over : option A) :
  default x (shadow over (Some x)) = default x over.
Proof. destruct over; reflexivity. Qed.

Lemma opts_reads_merge_builtin (o : opts) :
  opts_reads (merge_builtin o) = opts_reads o.
Proof.
  unfold opts_reads, merge_builtin, opts_update, builtin_defaults.
  cbn [fps hold_last_sec hold_mode stage_only clean_materials].
  rewrite !default_shadow_same. reflexivity.
Qed.

Lemma shadow_assoc {A} (a b c : option A) :
  shadow a (shadow b c) = shadow (shadow a b) c.
Proof. destruct a; reflexivity. Qed.

Lemma opts_update_assoc (a b c : opts) :
  opts_update (opts_update a b) c = opts_update a (opts_update b c).
Proof.
  unfold opts_update.
  cbn [fps hold_last_sec hold_mode stage_only clean_materials].
  rewrite !shadow_assoc. reflexivity.
Qed.

Lemma opts_update_no_opts (o : opts) : opts_update no_opts o = o.
Proof.
  destruct o as [f h c s m]. unfold opts_update, no_opts. simpl.
  destruct f, h, c, s, m; reflexivity.
Qed.

Lemma merged_layers_deep (key : pystr) (file : runtime_cfg) :
  opts_reads (merged_layers key (load_runtime_cfg (Some (deep_defaults file))))
  = opts_reads (merged_layers key (load_runtime_cfg (Some file))).
Proof.
  unfold merged_layers, load_runtime_cfg, deep_defaults.
  cbn [cfg_defaults cfg_views shadow default from_option id].
  set (per_view := default no_opts (_ !! key)).
  rewrite !opts_update_no_opts.
  destruct (cfg_defaults file) as [d|]; cbn [shadow default from_option id];
    unfold merge_builtin; rewrite opts_update_assoc.
  - apply (opts_reads_merge_builtin (opts_update d per_view)).
  - rewrite opts_update_no_opts. reflexivity.
Qed.

(** The environment layer reads the fps through its fall-back only, so
    it keeps two dictionaries that read alike reading alike. *)
Lemma effective_opts_reads (env : environ) (key : pystr)
    (cfg cfg' : runtime_cfg) :
  opts_reads (merged_layers key cfg) = opts_reads (merged_layers key cfg') →
  opts_reads (effective_opts env key cfg)
  = opts_reads (effective_opts env key cfg').
Proof.
  unfold effective_opts, hold_from_frames.
  generalize (merged_layers key cfg) (merged_layers key cfg').
  intros d d' Hsame. unfold opts_reads in Hsame.
  injection Hsame as Hf Hh Hm Hs Hc.
  destruct (truthy (ENV_CLEAN env)), (truthy (ENV_STAGE_ONLY env)),
    (truthy (ENV_HOLD_LAST env)), (truthy (ENV_HOLD_MODE env));
    cbn [set_clean set_stage_only set_hold set_hold_mode fps hold_last_sec
         hold_mode stage_only clean_materials];
    rewrite ?Hf;
    try (destruct (py_int (ENV_HOLD_LAST env));
         [destruct (Qeq_bool _ _)|]);
    unfold opts_reads;
    cbn [set_clean set_stage_only set_hold set_hold_mode fps hold_last_sec
         hold_mode stage_only clean_materials default from_option];
    congruence.
Qed.

Lemma deploy_latest_frames_reads (link_ok : bool) (v : view) (path : pystr)
    (o o' : opts) (w : world) :
  opts_reads o = opts_reads o' →
  deploy_latest_frames link_ok v path o w
  = deploy_latest_frames link_ok v path o' w.
Proof.
  unfold opts_reads. intros [= Hf Hh Hm Hs Hc].
  unfold deploy_latest_frames. rewrite Hf, Hh, Hm, Hs, Hc. reflexivity.
Qed.

Lemma deploy_views_reads (link_ok : bool) (env : environ)
    (cfg cfg' : runtime_cfg) (projects : gmap pystr pystr)
    (views : list view) :
  (∀ key, opts_reads (effective_opts env key cfg)
          = opts_reads (effective_opts env key cfg')) →
  ∀ w reports,
    deploy_views link_ok env cfg projects views w reports
    = deploy_views link_ok env cfg' projects views w reports.
Proof.
  intros Hsame. induction views as [|v rest IH]; intros w reports;
    [reflexivity|].
  cbn [deploy_views].
  destruct (lookup_project projects (build_view_key v)) as [proj|];
    [|apply IH].
  rewrite (deploy_latest_frames_reads _ _ _ _ _ _ (Hsame (build_view_key v))).
  destruct (deploy_latest_frames _ _ _ _ _) as [[w' out]|e]; [apply IH|].
  reflexivity.
Qed.

(** A configuration file's [defaults] dictionary replaces the built-in
    defaults as a whole, but no run can tell: every key a deployment reads
    falls back to the built-in value where the dictionary lacks it, so the
    run is the one obtained by merging the file's defaults over the
    built-in ones field by field. *)
Theorem partial_defaults_are_harmless (link_ok : bool) (env : environ)
    (file : runtime_cfg) (views : option (list view))
    (projs_raw : option (list project)) (w : world) :
  main link_ok env (Some file) views projs_raw w
  = main link_ok env (Some (deep_defaults file)) views projs_raw w.
Proof.
  unfold main. destruct views as [views|]; [|reflexivity].
  destruct projs_raw as [projs_raw|]; [|reflexivity].
  apply deploy_views_reads. intros key. apply effective_opts_reads.
  symmetry. apply merged_layers_deep.
Qed.
End DefaultsFacts.

(* ------------------------------------------------------------------ *)
(** *** Publication into the materials folder *)

Lemma dir_write_write (name : pystr) (x y : node) (d : dir) :
  dir_write name y (dir_write name x d) = dir_write name y d.
Proof.
  induction d as [|[n z] r IH]; cbn [dir_write].
  - rewrite str_eqb_refl. reflexivity.
  - destruct (str_eqb n name) eqn:E; cbn [dir_write]; rewrite E;
      [reflexivity|]. rewrite IH. reflexivity.
Qed.

Lemma dir_write_same (name : pystr) (x : node) (d : dir) :
  dir_lookup name d = Some x → dir_write name x d = d.
Proof.
  induction d as [|[n z] r IH]; cbn [dir_lookup dir_write]; [discriminate|].
  destruct (str_eqb n name) eqn:E.
  - intros [= ->]. reflexivity.
  - intros Hl. rewrite IH by exact Hl. reflexivity.
Qed.

Lemma files_only_write_all (entries d : dir) :
  files_only entries → files_only d → files_only (write_all entries d).
Proof.
  intros He. revert d. unfold write_all.
  induction He as [|[n x] r Hx _ IH]; intros d Hd; [exact Hd|].
  simpl. apply IH. apply Forall_dir_write; [exact Hd|exact Hx].
Qed.

(** Copying frames into a materials folder of regular files writes them
    all, counts them all, and touches nothing else of the project. *)
Lemma copy_frames_eq (frames : dir) :
  files_only frames →
  ∀ (proj : dir) (copied : nat) (m : Z) (materials : dir),
    dir_lookup (U "materials") proj = Some (Dir m materials) →
    files_only materials →
    copy_frames frames proj copied
    = Ok (dir_write (U "materials") (Dir m (write_all frames materials)) proj,
          copied + length frames).
Proof.
  induction 1 as [|[n x] r Hx _ IH]; intros proj copied m materials Hmat Hfiles.
  - simpl. rewrite (dir_write_same _ _ _ Hmat), Nat.add_0_r. reflexivity.
  - simpl in Hx. destruct x as [data|? ?]; [|discriminate Hx].
    cbn [copy_frames]. unfold copy2 at 1. rewrite Hmat.
    pose proof (files_only_lookup n materials Hfiles) as Hl.
    assert (Hstep : match dir_lookup n materials with
                    | Some (Dir _ _) => Raise IsADirectoryError
                    | _ => Ok (dir_write (U "materials")
                                 (Dir m (dir_write n (File data) materials))
                                 proj)
                    end
                    = Ok (dir_write (U "materials")
                            (Dir m (dir_write n (File data) materials)) proj)).
    { destruct (dir_lookup n materials) as [[?|? ?]|];
        [reflexivity|contradiction|reflexivity]. }
    rewrite Hstep. cbn [mbind res_bind].
    rewrite (IH _ (S copied) m (dir_write n (File data) materials)).
    + rewrite dir_write_write. cbn [length]. f_equal. f_equal. lia.
    + apply dir_lookup_write_eq.
    + apply Forall_dir_write; [exact Hfiles|reflexivity].
Qed.





(** The frame entries of the staging directory after a successful run of
    the stager. *)
Lemma stage_staged_frames (link_ok : bool) (parent parent' : dir)
    (fps hold_last_sec : Q) (hold_mode rn : pystr) (N hold : nat) :
  stage_from_latest_run link_ok parent fps hold_last_sec hold_mode
  = Ok (parent', Staged rn N hold) →
  no_frame_dirs (staging_entries parent) →
  (List.filter (λ e, glob_frame e.1) (staging_entries parent')).*1
  = frame_name <$> seq 0 (N + hold)
  ∧ files_only (List.filter (λ e, glob_frame e.1) (staging_entries parent')).
Proof.
  intros Hrun Hnd.
  destruct (latest_run_folder parent) as [[rn' run]|] eqn:Hl.
  2: { unfold stage_from_latest_run in Hrun. rewrite Hl in Hrun.
       discriminate Hrun. }
  destruct (mkdir_exist_ok (U "staging") parent) as [parent1|e] eqn:Hmk.
  2: { unfold stage_from_latest_run in Hrun. rewrite Hl, Hmk in Hrun.
       discriminate Hrun. }
  rewrite (stage_from_latest_run_shape _ _ _ _ _ _ _ _ Hl Hmk Hnd) in Hrun.
  destruct (is_nil (source_files run)) eqn:Hnil; [discriminate Hrun|].
  destruct (forallb _ (source_files run)) eqn:Hall; [|discriminate Hrun].
  destruct (last_is_file _ Hnil Hall) as (ln & data & Hlast).
  rewrite Hlast in Hrun. cbn [from_option snd] in Hrun.
  destruct (stage_manifest run _) as [staging'|e] eqn:Hman;
    [|discriminate Hrun].
  cbn [mbind res_bind] in Hrun. injection Hrun as <- <- <- <-.
  apply stage_manifest_frames in Hman.
  rewrite filter_staged in Hman
    by (apply clean_staging_no_frame_names, Hnd).
  assert (Hlen : 0 < length (source_files run)).
  { destruct (source_files run); [discriminate Hnil|simpl; lia]. }
  rewrite staging_entries_put, Hman. split.
  - rewrite fmap_app, renumber_names, held_names, seq_app, fmap_app.
    do 3 f_equal. lia.
  - apply Forall_app. split; [|apply files_only_held].
    apply files_only_renumber. unfold files_only.
    rewrite Forall_forall. rewrite forallb_forall in Hall.
    intros e He. apply Hall, list_elem_of_In, He.
Qed.

Lemma copy_manifest_keeps (name : pystr) (staging proj : dir) :
  name ≠ U "current_manifest.json" →
  dir_lookup name (copy_manifest staging proj).1 = dir_lookup name proj.
Proof.
  intros Hne. unfold copy_manifest.
  destruct (dir_lookup (U "current_manifest.json") staging) as [m|];
    [|reflexivity].
  destruct (copy2 _ _ _ proj) as [proj'|e] eqn:Hc; [|reflexivity].
  apply copy2_writes in Hc as [x ->]. simpl.
  apply dir_lookup_write_ne. congruence.
Qed.


Section PublishFacts.
Context {UT : UnicodeTable}.

(** What a deployment that reached the publication did, on a regular
    world. *)
Lemma deployed_inv (link_ok : bool) (v : view) (path : pystr) (o : opts)
    (w w' : world) (r : stage_report) (copied : nat) (note : manifest_note) :
  world_ok w →
  deploy_latest_frames link_ok v path o w = Ok (w', Deployed r copied note) →
  ∃ n mt es parent' proj mm ms proj',
    find_parent_dir_for_key (output_root w) (build_view_key v)
    = Some (Child n)
    ∧ dir_lookup n (output_root w) = Some (Dir mt es)
    ∧ view_folder_ok es
    ∧ stage_from_latest_run link_ok es (default (2 # 1)%Q (fps o))
        (default (0 # 1)%Q (hold_last_sec o))
        (default (U "hardlink") (hold_mode o)) = Ok (parent', r)
    ∧ staged_ok r = true
    ∧ view_folder_ok parent'
    ∧ dir_lookup n (output_root w') = Some (Dir mt parent')
    ∧ project_dirs w !! path = Some proj
    ∧ dir_lookup (U "materials") proj = Some (Dir mm ms)
    ∧ files_only ms
    ∧ copied = length (staged_frames (staging_entries parent'))
    ∧ project_dirs w' !! path = Some proj'
    ∧ dir_lookup (U "materials") proj'
      = Some (Dir mm (write_all (staged_frames (staging_entries parent'))
                        (materials_before o ms))).
Proof.
  intros Hok Hrun. pose proof Hok as (Hnd & Hviews & Hprojs).
  unfold deploy_latest_frames in Hrun.
  destruct (find_parent_dir_for_key (output_root w) (build_view_key v))
    as [l|] eqn:Hfind; [|discriminate Hrun].
  destruct (find_parent_dir_in _ _ _ (build_view_key_has_underscore v) Hfind)
    as (n & x & -> & Hin & Hd).
  pose proof (dir_lookup_NoDup n x _ Hnd Hin) as Hlk.
  destruct x as [data|mt es]; [discriminate Hd|].
  cbn [read_loc] in Hrun. rewrite Hlk in Hrun. cbn [mbind res_bind] in Hrun.
  assert (Hes : view_folder_ok es).
  { rewrite Forall_forall in Hviews. apply (Hviews _ Hin). }
  destruct (stage_from_latest_run_total link_ok es
              (default (2 # 1)%Q (fps o)) (default (0 # 1)%Q (hold_last_sec o))
              (default (U "hardlink") (hold_mode o)) Hes)
    as (parent' & r' & Hstage & Hok').
  rewrite Hstage in Hrun.
  cbn [mbind res_bind write_loc] in Hrun. rewrite Hlk in Hrun.
  cbn [from_option node_mtime project_dirs output_root] in Hrun.
  destruct (staged_ok r') eqn:Hsok; cbn [negb] in Hrun; [|discriminate Hrun].
  destruct (default false (stage_only o)); [discriminate Hrun|].
  destruct (project_dirs w !! path) as [proj|] eqn:Hproj; [|discriminate Hrun].
  pose proof (Hprojs _ _ Hproj) as Hflat. simpl in Hflat.
  destruct (dir_lookup (U "materials") proj) as [[?|mm ms]|] eqn:Hmat;
    [discriminate Hrun| |discriminate Hrun].
  pose proof (flat_lookup _ _ _ Hflat Hmat) as Hms. simpl in Hms.
  assert (Hstaged : files_only (staged_frames (staging_entries parent'))).
  { apply files_only_sorted, files_only_filter, staging_files_only.
    apply Hok'. }
  assert (Hcopy :
            copy_frames (staged_frames (staging_entries parent'))
              (if default false (clean_materials o)
               then dir_write (U "materials")
                      (Dir mm (clean_materials_dir ms)) proj
               else proj) 0
            = Ok (dir_write (U "materials")
                    (Dir mm (write_all (staged_frames (staging_entries parent'))
                               (materials_before o ms))) proj,
                  length (staged_frames (staging_entries parent')))).
  { unfold materials_before. destruct (default false (clean_materials o)).
    - rewrite (copy_frames_eq _ Hstaged _ 0 mm (clean_materials_dir ms)).
      + rewrite dir_write_write. reflexivity.
      + apply dir_lookup_write_eq.
      + apply files_only_filter, Hms.
    - apply (copy_frames_eq _ Hstaged _ 0 mm ms Hmat Hms). }
  rewrite Hcopy in Hrun. cbn [mbind res_bind] in Hrun.
  pose proof (copy_manifest_keeps (U "materials")
                (staging_entries parent')
                (dir_write (U "materials")
                   (Dir mm (write_all (staged_frames (staging_entries parent'))
                              (materials_before o ms))) proj)) as Hkeep.
  destruct (copy_manifest (staging_entries parent') _) as [proj3 note3].
  injection Hrun as <- <- <- <-.
  exists n, mt, es, parent', proj, mm, ms, proj3.
  do 6 (split; [first [reflexivity|eassumption]|]).
  split; [simpl; apply dir_lookup_write_eq|].
  do 4 (split; [first [reflexivity|eassumption]|]).
  split; [simpl; apply lookup_insert_eq|].
  simpl in Hkeep. rewrite Hkeep by discriminate.
  apply dir_lookup_write_eq.
Qed.

(** The count a deployment reports as copied is the number of frames the
    stager reported: the batch's frames plus the hold slots. *)
Theorem deployed_copies_every_frame (link_ok : bool) (v : view)
    (path rn : pystr) (o : opts) (w w' : world) (N hold copied : nat)
    (note : manifest_note) :
  world_ok w →
  deploy_latest_frames link_ok v path o w
  = Ok (w', Deployed (Staged rn N hold) copied note) →
  copied = N + hold.
Proof.
  intros Hok Hrun.
  destruct (deployed_inv _ _ _ _ _ _ _ _ _ Hok Hrun)
    as (n & mt & es & parent' & proj & mm & ms & proj' & _ & _ & Hes & Hstage
        & _ & _ & _ & _ & _ & _ & -> & _).
  destruct (stage_staged_frames _ _ _ _ _ _ _ _ _ Hstage
              (files_only_no_frame_dirs _ (staging_files_only _ (proj1 Hes))))
    as [Hnames _].
  unfold staged_frames, sorted. rewrite merge_sort_Permutation.
  rewrite <- (length_fmap fst), Hnames, length_fmap, length_seq. reflexivity.
Qed.

End PublishFacts.

Lemma example_deployed_run :
  deploy_latest_frames (UT := latin1_table) true (view_of "GOES" "full" "IR")
    (U "proj/goes") clean_hold_opts example_world
  = Ok (example_deployed,
        Deployed (Staged (U "2024-05-01") 2 2) 4 NoManifest).
Proof. vm_compute. reflexivity. Qed.

Lemma deployed_copies_every_frame_witness :
  deploy_latest_frames (UT := latin1_table) true (view_of "GOES" "full" "IR")
    (U "proj/goes") clean_hold_opts example_world
  = Ok (example_deployed,
        Deployed (Staged (U "2024-05-01") 2 2) 4 NoManifest)
  ∧ 4 = 2 + 2.
Proof.
  split; [exact example_deployed_run|].
  exact (deployed_copies_every_frame (UT := latin1_table) _ _ _ _ _ _ _ _ _ _
           _ example_world_ok example_deployed_run).
Defined.


(* ------------------------------------------------------------------ *)
(** *** A deployment is local *)

Section LocalFacts.
Context {UT : UnicodeTable}.

(** Whatever its outcome, a deployment that returns changes at most the
    folder the locator returned for the view and the directory of the
    view's project: every other project directory and every other child of
    the output root is as it was. *)
Theorem deployment_is_local (link_ok : bool) (v : view) (path : pystr)
    (o : opts) (w w' : world) (out : outcome) :
  deploy_latest_frames link_ok v path o w = Ok (w', out) →
  (∀ other, other ≠ path →
            project_dirs w' !! other = project_dirs w !! other)
  ∧ (∀ name,
       find_parent_dir_for_key (output_root w) (build_view_key v)
       ≠ Some (Child name) →
       dir_lookup name (output_root w') = dir_lookup name (output_root w)).
Proof.
  unfold deploy_latest_frames.
  destruct (find_parent_dir_for_key (output_root w) (build_view_key v))
    as [l|] eqn:Hfind.
  2: { intros [= <- _]. split; reflexivity. }
  destruct (find_parent_dir_in _ _ _ (build_view_key_has_underscore v) Hfind)
    as (n & x & -> & _ & _).
  destruct (read_loc _ _) as [parent|e]; [|discriminate].
  cbn [mbind res_bind].
  destruct (stage_from_latest_run _ _ _ _ _) as [[parent' r]|e];
    [|discriminate].
  cbn [mbind res_bind write_loc project_dirs output_root].
  assert (Hroot : ∀ name mtime,
             Some (Child n) ≠ Some (Child name) →
             dir_lookup name (dir_write n (Dir mtime parent') (output_root w))
             = dir_lookup name (output_root w)).
  { intros name mtime Hne. apply dir_lookup_write_ne. congruence. }
  destruct (negb (staged_ok r)).
  { intros [= <- _]. split; [reflexivity|]. intros name. apply Hroot. }
  destruct (default false (stage_only o)).
  { intros [= <- _]. split; [reflexivity|]. intros name. apply Hroot. }
  destruct (project_dirs w !! path) as [proj|].
  2: { intros [= <- _]. split; [reflexivity|]. intros name. apply Hroot. }
  destruct (dir_lookup (U "materials") proj) as [[?|mm ms]|].
  1,3: intros [= <- _]; (split; [reflexivity|]); intros name; apply Hroot.
  destruct (copy_frames _ _ _) as [[proj2 copied]|e]; [|discriminate].
  cbn [mbind res_bind].
  destruct (copy_manifest _ _) as [proj3 note].
  intros [= <- _]. split.
  - intros other Hne. simpl. apply lookup_insert_ne. congruence.
  - intros name. apply Hroot.
Qed.
End LocalFacts.

Lemma deployment_is_local_witness :
  project_dirs example_deployed !! U "proj/hima"
  = project_dirs example_world !! U "proj/hima".
Proof.
  apply (deployment_is_local (UT := latin1_table) _ _ _ _ _ _ _
           example_deployed_run).
  discriminate.
Defined.

(* ------------------------------------------------------------------ *)
(** *** The code-point order *)

Lemma str_leb_refl (a : pystr) : str_leb a a = true.
Proof.
  induction a as [|x a IH]; [reflexivity|].
  simpl. rewrite N.ltb_irrefl. exact IH.
Qed.

#[global] Instance str_le_total : Total str_le.
Proof.
  unfold Total, str_le. intros a.
  induction a as [|x a IH]; intros [|y b]; simpl; auto.
  destruct (N.ltb_spec x y), (N.ltb_spec y x); auto; lia.
Qed.

#[global] Instance str_le_trans : Transitive str_le.
Proof.
  unfold Transitive, str_le. intros a.
  induction a as [|x a IH]; intros [|y b] [|z c]; simpl; auto;
    try discriminate.
  destruct (N.ltb_spec x y), (N.ltb_spec y x), (N.ltb_spec y z),
    (N.ltb_spec z y), (N.ltb_spec x z), (N.ltb_spec z x);
    try discriminate; try lia; auto.
  apply IH.
Qed.

#[global] Instance str_le_antisym : AntiSymm (=) str_le.
Proof.
  unfold AntiSymm, str_le. intros a.
  induction a as [|x a IH]; intros [|y b]; simpl; auto; try discriminate.
  destruct (N.ltb_spec x y), (N.ltb_spec y x); try discriminate; try lia.
  intros H1 H2. f_equal; [lia|]. apply IH; assumption.
Qed.

#[global] Instance name_le_total : Total name_le.
Proof. intros e1 e2. apply (total str_le). Qed.



(* ------------------------------------------------------------------ *)
(** *** The manifest of the fetcher and the names of the stager *)




(* ------------------------------------------------------------------ *)
(** *** The batch folder name of the fetcher *)

Section StampFacts.
Context {UT : UnicodeTable}.

Lemma stamp_here_iff (text : pystr) :
  stamp_here text = true
  ↔ ∃ post, text = take 14 text ++ 45%N :: post
            ∧ length (take 14 text) = 14
            ∧ Forall (λ c, re_digit c = true) (take 14 text).
Proof.
  unfold stamp_here. split.
  - intros H. apply andb_true_iff in H as [H Hh].
    apply andb_true_iff in H as [Hlen Hd].
    apply Nat.eqb_eq in Hlen. apply bool_decide_eq_true in Hh.
    destruct (drop 14 text) as [|c post] eqn:E; [discriminate Hh|].
    injection Hh as ->.
    exists post. split; [|split; [exact Hlen|]].
    + rewrite <- E. symmetry. apply take_drop.
    + apply Forall_forall. intros c Hc. rewrite forallb_forall in Hd.
      apply Hd, list_elem_of_In, Hc.
  - intros (post & Heq & Hlen & Hd).
    apply andb_true_iff. split; [apply andb_true_iff; split|].
    + apply Nat.eqb_eq, Hlen.
    + apply forallb_forall. intros c Hc. rewrite Forall_forall in Hd.
      apply Hd, list_elem_of_In, Hc.
    + apply bool_decide_eq_true. rewrite Heq at 1.
      rewrite drop_app_length'; [reflexivity|symmetry; exact Hlen].
Qed.

Lemma stamp_here_intro (d post : pystr) :
  length d = 14 → Forall (λ c, re_digit c = true) d →
  stamp_here (d ++ 45%N :: post) = true.
Proof.
  intros Hlen Hd. apply stamp_here_iff.
  assert (Ht : take 14 (d ++ 45%N :: post) = d).
  { rewrite take_app_length'; [reflexivity|symmetry; exact Hlen]. }
  rewrite Ht. exists post. auto.
Qed.

(** What [re.search] finds: the leftmost run of fourteen digits that a
    hyphen follows. *)
Lemma search_stamp_some (text dt : pystr) :
  search_stamp text = Some dt →
  ∃ pre post,
    text = pre ++ dt ++ 45%N :: post
    ∧ length dt = 14
    ∧ Forall (λ c, re_digit c = true) dt
    ∧ ∀ pre' d' post',
        text = pre' ++ d' ++ 45%N :: post' → length d' = 14 →
        Forall (λ c, re_digit c = true) d' → length pre ≤ length pre'.
Proof.
  induction text as [|c r IH]; [discriminate|].
  cbn [search_stamp]. destruct (stamp_here (c :: r)) eqn:Hh.
  - intros [= <-]. apply stamp_here_iff in Hh as (post & Heq & Hlen & Hd).
    exists [], post. split; [exact Heq|]. split; [exact Hlen|].
    split; [exact Hd|]. intros. simpl. lia.
  - intros Hs. destruct (IH Hs) as (pre & post & -> & Hlen & Hd & Hleft).
    exists (c :: pre), post. split; [reflexivity|]. split; [exact Hlen|].
    split; [exact Hd|]. intros pre' d' post' Heq Hlen' Hd'.
    destruct pre' as [|c' pre'].
    + simpl in Heq. rewrite Heq, stamp_here_intro in Hh by assumption.
      discriminate Hh.
    + injection Heq as -> Heq. simpl.
      specialize (Hleft _ _ _ Heq Hlen' Hd'). lia.
Qed.

Lemma search_stamp_none (text : pystr) :
  search_stamp text = None →
  ∀ pre d post,
    text = pre ++ d ++ 45%N :: post → length d = 14 →
    ¬ Forall (λ c, re_digit c = true) d.
Proof.
  induction text as [|c r IH]; intros Hs pre d post Heq Hlen Hd.
  - destruct pre, d; discriminate.
  - cbn [search_stamp] in Hs. destruct (stamp_here (c :: r)) eqn:Hh;
      [discriminate Hs|].
    destruct pre as [|c' pre].
    + simpl in Heq. rewrite Heq, stamp_here_intro in Hh by assumption.
      discriminate Hh.
    + injection Heq as -> Heq. exact (IH Hs _ _ _ Heq Hlen Hd).
Qed.

Lemma format_stamp_digits (dt : pystr) :
  length dt = 14 → Forall (λ c, re_digit c = true) dt →
  length (format_stamp dt) = 19
  ∧ List.filter re_digit (format_stamp dt) = dt
  ∧ Forall (λ c, re_digit c = true ∨ c = 45%N ∨ c = 95%N) (format_stamp dt).
Proof.
  intros Hlen Hd.
  do 15 (destruct dt as [|? dt]; try discriminate Hlen).
  repeat match goal with
         | H : Forall _ (_ :: _) |- _ => apply Forall_cons in H as [? H]
         end.
  unfold format_stamp, slice. change (U "-") with [45%N].
  change (U "_") with [95%N]. cbn [Nat.sub drop take app].
  split; [reflexivity|]. split.
  - cbn [List.filter].
    repeat match goal with
           | H : re_digit _ = true |- _ => rewrite H; clear H
           end.
    reflexivity.
  - repeat (apply Forall_cons; split;
            [first [left; assumption
                   |right; left; reflexivity
                   |right; right; reflexivity]|]).
    apply Forall_nil_2.
Qed.

(** The characters of a batch folder name: those of [download], or
    nineteen characters that are digits, hyphens or one underscore. *)
Lemma parse_timestamp_chars (zip_filename : pystr) :
  parse_timestamp zip_filename = U "download"
  ∨ (length (parse_timestamp zip_filename) = 19
     ∧ Forall (λ c, re_digit c = true ∨ c = 45%N ∨ c = 95%N)
              (parse_timestamp zip_filename)).
Proof.
  unfold parse_timestamp.
  destruct (search_stamp zip_filename) as [dt|] eqn:Hs; [right|left; reflexivity].
  destruct (search_stamp_some _ _ Hs) as (pre & post & Heq & Hlen & Hd & Hleft).
  destruct (format_stamp_digits dt Hlen Hd) as (H19 & Hdigits & Hchars).
  split; assumption.
Qed.

(** The batch folder name is either [download], when no run of fourteen
    digits followed by a hyphen occurs in the archive name, or the
    nineteen characters [dddd-dd-dd_dd-dd-dd] written with the digits of
    the leftmost such run. *)
Theorem parse_timestamp_shape (zip_filename : pystr) :
  (parse_timestamp zip_filename = U "download"
   ∧ ∀ pre d post,
       zip_filename = pre ++ d ++ 45%N :: post → length d = 14 →
       ¬ Forall (λ c, re_digit c = true) d)
  ∨ ∃ pre dt post,
      zip_filename = pre ++ dt ++ 45%N :: post
      ∧ length dt = 14
      ∧ Forall (λ c, re_digit c = true) dt
      ∧ (∀ pre' d' post',
           zip_filename = pre' ++ d' ++ 45%N :: post' → length d' = 14 →
           Forall (λ c, re_digit c = true) d' → length pre ≤ length pre')
      ∧ length (parse_timestamp zip_filename) = 19
      ∧ List.filter re_digit (parse_timestamp zip_filename) = dt
      ∧ Forall (λ c, re_digit c = true ∨ c = 45%N ∨ c = 95%N)
               (parse_timestamp zip_filename).
Proof.
  unfold parse_timestamp.
  destruct (search_stamp zip_filename) as [dt|] eqn:Hs.
  - right. destruct (search_stamp_some _ _ Hs)
      as (pre & post & Heq & Hlen & Hd & Hleft).
    destruct (format_stamp_digits dt Hlen Hd) as (H19 & Hdigits & Hchars).
    exists pre, dt, post. auto 10.
  - left. split; [reflexivity|]. apply search_stamp_none, Hs.
Qed.

(** A batch folder the fetcher names is never mistaken for the staging
    directory, and its name holds no path separator: wherever such a
    folder stands in a view folder, it is a candidate of the stager. *)
Theorem fetched_batch_is_candidate (zip_filename : pystr) :
  parse_timestamp zip_filename ≠ U "staging"
  ∧ (47%N ∉ parse_timestamp zip_filename)
  ∧ (92%N ∉ parse_timestamp zip_filename)
  ∧ ∀ (parent : dir) (x : node),
      (parse_timestamp zip_filename, x) ∈ parent → is_dir x = true →
      (parse_timestamp zip_filename, x) ∈ all_runs parent.
Proof.
  assert (Hne : parse_timestamp zip_filename ≠ U "staging").
  { destruct (parse_timestamp_chars zip_filename) as [->|[H19 _]];
      [discriminate|].
    intros E. rewrite E in H19. discriminate H19. }
  split; [exact Hne|].
  assert (Hnot : ∀ c, re_digit c = false → c ≠ 45%N → c ≠ 95%N →
                      c ∉ U "download" → c ∉ parse_timestamp zip_filename).
  { intros c Hc H45 H95 Hd Hin.
    destruct (parse_timestamp_chars zip_filename) as [E|[_ Hchars]].
    - rewrite E in Hin. exact (Hd Hin).
    - rewrite Forall_forall in Hchars.
      destruct (Hchars _ Hin) as [H|[H|H]]; congruence. }
  split; [|split].
  - apply Hnot; [reflexivity|discriminate|discriminate|].
    intros Hin. vm_compute in Hin.
    repeat (apply elem_of_cons in Hin as [Hin|Hin]; [discriminate Hin|]).
    apply elem_of_nil in Hin. exact Hin.
  - apply Hnot; [reflexivity|discriminate|discriminate|].
    intros Hin. vm_compute in Hin.
    repeat (apply elem_of_cons in Hin as [Hin|Hin]; [discriminate Hin|]).
    apply elem_of_nil in Hin. exact Hin.
  - intros parent x Hin Hd. unfold all_runs.
    apply list_elem_of_In, filter_In. split; [apply list_elem_of_In, Hin|].
    simpl. rewrite Hd. simpl. apply negb_true_iff, str_eqb_false, Hne.
Qed.
End StampFacts.

Example parse_timestamp_examples :
  parse_timestamp (UT := latin1_table) (U "cira-20240501123456-goes.zip")
  = U "2024-05-01_12-34-56"
  ∧ parse_timestamp (UT := latin1_table) (U "7720240501123456-x.zip")
    = U "2024-05-01_12-34-56"
  ∧ parse_timestamp (UT := latin1_table) (U "20240501123456.zip")
    = U "download".
Proof. repeat split; reflexivity. Qed.

(* ------------------------------------------------------------------ *)
(** *** The reports of a run follow the views *)

Section ReportFacts.
Context {UT : UnicodeTable}.


End ReportFacts.
